(** * rl-migration-optimizer: the strategy derivation of [MockMigrationOptimizer]

    A shallow embedding of [src/rl_migration_optimizer/optimizer.py] and
    of the button handlers of [src/rl_migration_optimizer/app.py].

    Modelling conventions.
    - The method is embedded twice. The first embedding computes with
      exact rationals: a number is [PyInt z] (an unbounded integer) or
      [PyFloat q], so rounding, infinities and NaN are outside it; it
      carries the properties that hold of the float computation as well
      (orderings, clamps, the worker count, the fallback). The second,
      [Binary64], computes as Python does, with unbounded integers and
      IEEE 754 binary64 floats, and carries the properties that depend
      on rounding or on the range of a float.
    - Text is a [string] of one-byte characters, so it stands for ASCII
      text.
    - Dictionaries with string keys are [gmap string pyval]; a subscript
      on a missing key raises [KeyError] with that key.
    - The method body runs in a state-and-exception monad over the
      optimizer object, one bind per evaluated sub-expression, in
      Python's left-to-right evaluation order.
    - Formatted strings are kept as a list of pieces (literal text and
      the values substituted into it); the rendering of a number to
      decimal text is not modelled. *)

From Stdlib Require Import ZArith QArith Qround String Ascii List Lia Lqa.
From Stdlib Require Import SpecFloat.
From stdpp Require Import base gmap strings.
Import ListNotations.

Local Open Scope Z_scope.

(** ** Python values and built-in operations *)

Module Py.

Inductive number : Type :=
  | PyInt (z : Z)
  | PyFloat (q : Q).

Inductive pyval : Type :=
  | VNum (n : number)
  | VStr (s : string)
  | VNone.

Inductive exn : Type :=
  | KeyError (key : string)
  | TypeError
  | ValueError
  | ZeroDivisionError
  | OverflowError.

Inductive outcome (A : Type) : Type :=
  | Return (a : A)
  | Raise (e : exn).
Arguments Return {A} a.
Arguments Raise {A} e.

Definition vint (z : Z) : pyval := VNum (PyInt z).
Definition vfloat (q : Q) : pyval := VNum (PyFloat q).

(** The mathematical value of a number. *)
Definition qval (n : number) : Q :=
  match n with
  | PyInt z => inject_Z z
  | PyFloat q => q
  end.

Definition Qltb (x y : Q) : bool :=
  match (x ?= y)%Q with Lt => true | _ => false end.

Definition Qis_zero (x : Q) : bool := Qeq_bool x 0.

(** [int(x)] on a float drops the fractional part (rounds toward zero). *)
Definition Qtruncate (q : Q) : Z := Z.quot (Qnum q) (Z.pos (Qden q)).

(** *** Arithmetic on numbers *)

Definition num_mul (a b : number) : number :=
  match a, b with
  | PyInt x, PyInt y => PyInt (x * y)
  | _, _ => PyFloat (qval a * qval b)
  end.

Definition num_add (a b : number) : number :=
  match a, b with
  | PyInt x, PyInt y => PyInt (x + y)
  | _, _ => PyFloat (qval a + qval b)
  end.

Definition num_sub (a b : number) : number :=
  match a, b with
  | PyInt x, PyInt y => PyInt (x - y)
  | _, _ => PyFloat (qval a - qval b)
  end.

(** [a / b]: true division always yields a float. *)
Definition num_truediv (a b : number) : outcome number :=
  if Qis_zero (qval b) then Raise ZeroDivisionError
  else Return (PyFloat (qval a / qval b)).

(** [a // b]: floor division; an integer for two integers. *)
Definition num_floordiv (a b : number) : outcome number :=
  if Qis_zero (qval b) then Raise ZeroDivisionError
  else match a, b with
       | PyInt x, PyInt y => Return (PyInt (x / y))
       | _, _ => Return (PyFloat (inject_Z (Qfloor (qval a / qval b))))
       end.

Definition num_int (a : number) : Z :=
  match a with
  | PyInt z => z
  | PyFloat q => Qtruncate q
  end.

Definition num_lt (a b : number) : bool := Qltb (qval a) (qval b).

(** *** [int()] on a string of ASCII text: optional surrounding white
    space, an optional sign, then decimal digits which single
    underscores may separate. Two things are outside this function:
    digits and white space beyond ASCII, which [int()] accepts as well,
    and the interpreter's limit on the number of digits (4300 unless
    configured otherwise), beyond which [int()] raises [ValueError]. *)

Definition is_ascii (s : string) : Prop :=
  Forall (fun c => (nat_of_ascii c < 128)%nat) (list_ascii_of_string s).

Definition is_space (c : ascii) : bool :=
  let n := nat_of_ascii c in
  (((9 <=? n) && (n <=? 13)) || ((28 <=? n) && (n <=? 32)))%nat.

Definition digit_of (c : ascii) : option Z :=
  let n := Z.of_nat (nat_of_ascii c) in
  if (48 <=? n) && (n <=? 57) then Some (n - 48) else None.

Fixpoint lstrip (s : list ascii) : list ascii :=
  match s with
  | c :: rest => if is_space c then lstrip rest else s
  | [] => []
  end.

Definition strip (s : list ascii) : list ascii :=
  rev (lstrip (rev (lstrip s))).

Fixpoint parse_digits (s : list ascii) (acc : Z) (after_digit : bool) : option Z :=
  match s with
  | [] => if after_digit then Some acc else None
  | c :: rest =>
      if Ascii.eqb c "_"%char
      then (if after_digit then parse_digits rest acc false else None)
      else match digit_of c with
           | Some d => parse_digits rest (10 * acc + d) true
           | None => None
           end
  end.

Definition int_of_string (s : string) : option Z :=
  match strip (list_ascii_of_string s) with
  | c :: rest =>
      if Ascii.eqb c "-"%char then option_map Z.opp (parse_digits rest 0 false)
      else if Ascii.eqb c "+"%char then parse_digits rest 0 false
      else parse_digits (c :: rest) 0 false
  | [] => None
  end.

(** [s * n] on a string repeats it; a count below one gives the empty string. *)
Fixpoint repeat_string (n : nat) (s : string) : string :=
  match n with
  | O => EmptyString
  | S k => String.append s (repeat_string k s)
  end.

(** *** The operators, dispatched on the dynamic type of the operands *)

Definition lift_num (r : outcome number) : outcome pyval :=
  match r with
  | Return n => Return (VNum n)
  | Raise e => Raise e
  end.

Definition py_mul (a b : pyval) : outcome pyval :=
  match a, b with
  | VNum x, VNum y => Return (VNum (num_mul x y))
  | VStr s, VNum (PyInt n) => Return (VStr (repeat_string (Z.to_nat n) s))
  | VNum (PyInt n), VStr s => Return (VStr (repeat_string (Z.to_nat n) s))
  | _, _ => Raise TypeError
  end.

Definition py_add (a b : pyval) : outcome pyval :=
  match a, b with
  | VNum x, VNum y => Return (VNum (num_add x y))
  | VStr s, VStr t => Return (VStr (String.append s t))
  | _, _ => Raise TypeError
  end.

Definition py_sub (a b : pyval) : outcome pyval :=
  match a, b with
  | VNum x, VNum y => Return (VNum (num_sub x y))
  | _, _ => Raise TypeError
  end.

Definition py_truediv (a b : pyval) : outcome pyval :=
  match a, b with
  | VNum x, VNum y => lift_num (num_truediv x y)
  | _, _ => Raise TypeError
  end.

Definition py_floordiv (a b : pyval) : outcome pyval :=
  match a, b with
  | VNum x, VNum y => lift_num (num_floordiv x y)
  | _, _ => Raise TypeError
  end.

Definition py_int (a : pyval) : outcome pyval :=
  match a with
  | VNum x => Return (vint (num_int x))
  | VStr s => match int_of_string s with
              | Some z => Return (vint z)
              | None => Raise ValueError
              end
  | VNone => Raise TypeError
  end.

(** [a < b]; numbers compare by value, strings by code points, and any
    other pairing is a [TypeError]. *)
Definition py_lt (a b : pyval) : outcome bool :=
  match a, b with
  | VNum x, VNum y => Return (num_lt x y)
  | VStr s, VStr t => Return (String.ltb s t)
  | _, _ => Raise TypeError
  end.

Definition py_gt (a b : pyval) : outcome bool := py_lt b a.

(** [min(a, b)] keeps [a] unless [b < a]; [max(a, b)] keeps [a] unless
    [b > a]. The result is one of the two arguments, type included. *)
Definition py_min (a b : pyval) : outcome pyval :=
  match py_lt b a with
  | Return lt => Return (if lt then b else a)
  | Raise e => Raise e
  end.

Definition py_max (a b : pyval) : outcome pyval :=
  match py_gt b a with
  | Return gt => Return (if gt then b else a)
  | Raise e => Raise e
  end.

(** [d[k]] *)
Definition getitem (d : gmap string pyval) (k : string) : outcome pyval :=
  match d !! k with
  | Some v => Return v
  | None => Raise (KeyError k)
  end.

(** *** Formatted string literals *)

Inductive fpiece : Type :=
  | Lit (s : string)          (* literal text *)
  | Fixed2 (n : number)       (* a replacement field with spec [.2f] *)
  | Display (v : pyval).      (* a replacement field without a spec *)

Definition fstring : Type := list fpiece.

(** [format(v, ".2f")] is defined on numbers only. *)
Definition format_2f (v : pyval) : outcome fpiece :=
  match v with
  | VNum n => Return (Fixed2 n)
  | VStr _ => Raise ValueError
  | VNone => Raise TypeError
  end.

End Py.
Export Py.

(** ** The strategy dictionary returned by [optimize_migration_strategy] *)

Record ExpectedPerformance : Type := {
  quality_score : pyval;
  processing_time_minutes : pyval;
  resource_usage : pyval;
  success_probability : pyval
}.

Record ActionParameters : Type := {
  batch_size : pyval;
  parallel_workers : pyval;
  compression_level : pyval;
  validation_frequency : pyval;
  retry_strategy : pyval;
  resource_allocation : pyval;
  checkpoint_frequency : pyval;
  error_handling : pyval
}.

Record RiskAssessment : Type := {
  risk_level : string;
  risk_factors : list fstring;
  mitigation_strategies : list string
}.

Record FallbackStrategy : Type := {
  fallback_batch_size : pyval;
  fallback_parallel_workers : pyval;
  fallback_compression_level : pyval;
  fallback_validation_frequency : pyval;
  fallback_resource_allocation : pyval
}.

Record MonitoringPoint : Type := {
  metric : string;
  frequency : string;
  threshold : string
}.

Record Recommendations : Type := {
  primary_strategy : fstring;
  fallback_strategy : FallbackStrategy;
  monitoring_points : list MonitoringPoint
}.

Record Strategy : Type := {
  expected_performance : ExpectedPerformance;
  action_parameters : ActionParameters;
  risk_assessment : RiskAssessment;
  recommendations : Recommendations
}.

Record PerformanceMetrics : Type := {
  total_optimizations : Z;
  avg_quality_score : Q;
  avg_processing_time : Q;
  avg_success_probability : Q
}.

(** ** The optimizer object and the monad its methods run in *)

(** The attributes [__init__] sets; the logger handle is never used
    afterwards and is left out. *)
Record MockMigrationOptimizer : Type := {
  optimization_history : list pyval;
  current_migration : pyval
}.

Definition M (A : Type) : Type :=
  MockMigrationOptimizer -> outcome A * MockMigrationOptimizer.

Definition ret {A} (a : A) : M A := fun self => (Return a, self).

Definition bind {A B} (m : M A) (k : A -> M B) : M B :=
  fun self =>
    match m self with
    | (Return a, self') => k a self'
    | (Raise e, self') => (Raise e, self')
    end.

(** A built-in: it neither reads nor writes the object. *)
Definition builtin {A} (r : outcome A) : M A := fun self => (r, self).

(** Reading an attribute of [self]. *)
Definition attr {A} (f : MockMigrationOptimizer -> A) : M A :=
  fun self => (Return (f self), self).

Declare Scope py_scope.
Delimit Scope py_scope with py.
Notation "x <- e ;; k" := (bind (builtin e) (fun x => k))
  (at level 62, e at next level, right associativity) : py_scope.
Notation "x <<- m ;; k" := (bind m (fun x => k))
  (at level 62, m at next level, right associativity) : py_scope.

Local Open Scope py_scope.
Local Open Scope string_scope.

(** [MockMigrationOptimizer()] *)
Definition init : MockMigrationOptimizer :=
  {| optimization_history := []; current_migration := VNone |}.

Definition get_performance_metrics : M PerformanceMetrics :=
  history <<- attr optimization_history ;;
  ret {| total_optimizations := Z.of_nat (length history);
         avg_quality_score := 0.87;
         avg_processing_time := 12.5;
         avg_success_probability := 0.89 |}.

(** [a > x and b > y], with the right conjunct evaluated only when the
    left one holds. *)
Definition both_above (a x b y : pyval) : M bool :=
  l <- py_gt a x ;;
  if l then (r <- py_gt b y ;; ret r) else ret false.

Definition optimize_migration_strategy
    (table_info : gmap string pyval) (current_quality : pyval)
    (resource_constraints : gmap string pyval) : M Strategy :=
  (* batch_size = max(1000, int(table_info['size_mb'] * 10)) *)
  size_mb <- getitem table_info "size_mb" ;;
  t <- py_mul size_mb (vint 10) ;;
  t <- py_int t ;;
  batch_size <- py_max (vint 1000) t ;;
  (* parallel_workers = min(8, max(1, int(table_info['size_mb'] / 1000))) *)
  size_mb <- getitem table_info "size_mb" ;;
  t <- py_truediv size_mb (vint 1000) ;;
  t <- py_int t ;;
  t <- py_max (vint 1) t ;;
  parallel_workers <- py_min (vint 8) t ;;
  (* quality_score = min(0.98, current_quality
                           + (1 - table_info['schema_complexity']) * 0.1) *)
  schema_complexity <- getitem table_info "schema_complexity" ;;
  t <- py_sub (vint 1) schema_complexity ;;
  t <- py_mul t (vfloat 0.1) ;;
  t <- py_add current_quality t ;;
  quality_score <- py_min (vfloat 0.98) t ;;
  (* processing_time = max(5, table_info['size_mb'] / (parallel_workers * 100)) *)
  size_mb <- getitem table_info "size_mb" ;;
  t <- py_mul parallel_workers (vint 100) ;;
  t <- py_truediv size_mb t ;;
  processing_time <- py_max (vint 5) t ;;
  (* resource_usage = min(0.9, resource_constraints['cpu_utilization']
                              + resource_constraints['memory_utilization']) *)
  cpu_utilization <- getitem resource_constraints "cpu_utilization" ;;
  memory_utilization <- getitem resource_constraints "memory_utilization" ;;
  t <- py_add cpu_utilization memory_utilization ;;
  resource_usage <- py_min (vfloat 0.9) t ;;
  (* success_probability = max(0.7, 1 - table_info['schema_complexity'] * 0.3) *)
  schema_complexity <- getitem table_info "schema_complexity" ;;
  t <- py_mul schema_complexity (vfloat 0.3) ;;
  t <- py_sub (vint 1) t ;;
  success_probability <- py_max (vfloat 0.7) t ;;
  (* if ... elif ... else *)
  risk_level <<-
    (low <<- both_above success_probability (vfloat 0.9)
                        quality_score (vfloat 0.95) ;;
     if low then ret "LOW"
     else (medium <<- both_above success_probability (vfloat 0.8)
                                 quality_score (vfloat 0.9) ;;
           if medium then ret "MEDIUM" else ret "HIGH")) ;;
  (* the dictionary display, entries evaluated top to bottom *)
  schema_complexity <- getitem table_info "schema_complexity" ;;
  complexity_text <- format_2f schema_complexity ;;
  data_type <- getitem table_info "data_type" ;;
  source_system <- getitem table_info "source_system" ;;
  target_system <- getitem table_info "target_system" ;;
  half_batch <- py_floordiv batch_size (vint 2) ;;
  t <- py_floordiv parallel_workers (vint 2) ;;
  half_workers <- py_max (vint 1) t ;;
  ret {|
    expected_performance := {|
      quality_score := quality_score;
      processing_time_minutes := processing_time;
      resource_usage := resource_usage;
      success_probability := success_probability |};
    action_parameters := {|
      batch_size := batch_size;
      parallel_workers := parallel_workers;
      compression_level := vint 6;
      validation_frequency := vfloat 0.1;
      retry_strategy := vint 1;
      resource_allocation := vfloat 0.8;
      checkpoint_frequency := vfloat 0.2;
      error_handling := vint 1 |};
    risk_assessment := {|
      risk_level := risk_level;
      risk_factors := [
        [Lit "Schema complexity: "; complexity_text];
        [Lit "Data type: "; Display data_type];
        [Lit "System compatibility: "; Display source_system;
         Lit " → "; Display target_system] ];
      mitigation_strategies := [
        "Use incremental validation";
        "Implement rollback mechanisms";
        "Monitor resource usage closely" ] |};
    recommendations := {|
      primary_strategy :=
        [Lit "Batch processing with "; Display parallel_workers; Lit " workers"];
      fallback_strategy := {|
        fallback_batch_size := half_batch;
        fallback_parallel_workers := half_workers;
        fallback_compression_level := vint 3;
        fallback_validation_frequency := vfloat 0.05;
        fallback_resource_allocation := vfloat 0.6 |};
      monitoring_points := [
        {| metric := "data_quality"; frequency := "every 1000 records";
           threshold := "> 0.95" |};
        {| metric := "processing_speed"; frequency := "every 5 minutes";
           threshold := "> 1000 records/min" |};
        {| metric := "resource_usage"; frequency := "continuous";
           threshold := "< 0.9" |} ] |}
  |}.

(** The value returned by a call, and the object after it. *)
Definition result {A} (m : M A) (self : MockMigrationOptimizer) : outcome A :=
  fst (m self).
Definition after {A} (m : M A) (self : MockMigrationOptimizer)
  : MockMigrationOptimizer := snd (m self).

(** ** Well-typed requests *)

(** The scalars a call reads, when every one of them is present and the
    five used in arithmetic are numbers. *)
Record MigrationRequest : Type := {
  req_size_mb : number;
  req_schema_complexity : number;
  req_current_quality : number;
  req_cpu_utilization : number;
  req_memory_utilization : number;
  req_data_type : pyval;
  req_source_system : pyval;
  req_target_system : pyval
}.

(** The arguments of a call hold the request [r] (other keys are free). *)
Record carries (table_info : gmap string pyval) (current_quality : pyval)
    (resource_constraints : gmap string pyval) (r : MigrationRequest) : Prop := {
  carries_size_mb :
    table_info !! "size_mb" = Some (VNum (req_size_mb r));
  carries_schema_complexity :
    table_info !! "schema_complexity" = Some (VNum (req_schema_complexity r));
  carries_data_type :
    table_info !! "data_type" = Some (req_data_type r);
  carries_source_system :
    table_info !! "source_system" = Some (req_source_system r);
  carries_target_system :
    table_info !! "target_system" = Some (req_target_system r);
  carries_current_quality :
    current_quality = VNum (req_current_quality r);
  carries_cpu_utilization :
    resource_constraints !! "cpu_utilization"
      = Some (VNum (req_cpu_utilization r));
  carries_memory_utilization :
    resource_constraints !! "memory_utilization"
      = Some (VNum (req_memory_utilization r))
}.

(** The preconditions of the specification. *)
Record valid (r : MigrationRequest) : Prop := {
  valid_size_mb : (0 < qval (req_size_mb r))%Q;
  valid_schema_complexity :
    (0 <= qval (req_schema_complexity r) <= 1)%Q;
  valid_current_quality :
    (0 <= qval (req_current_quality r) <= 1)%Q;
  valid_cpu_utilization :
    (0 <= qval (req_cpu_utilization r) <= 1)%Q;
  valid_memory_utilization :
    (0 <= qval (req_memory_utilization r) <= 1)%Q
}.



(** The numeric content of a value; [None] for a string or [None]. *)
Definition as_number (v : pyval) : option number :=
  match v with
  | VNum n => Some n
  | _ => None
  end.

(** Comparison of a returned value with a rational. *)
Definition has_value (v : pyval) (q : Q) : Prop :=
  match v with
  | VNum n => (qval n == q)%Q
  | _ => False
  end.

(** ** Notions the specification uses *)



(** The required keys of each dictionary argument. *)
Definition table_info_keys : list string :=
  ["size_mb"; "schema_complexity"; "data_type"; "source_system"; "target_system"].
Definition resource_constraints_keys : list string :=
  ["cpu_utilization"; "memory_utilization"].

(** ** The call on a well-typed request, in closed form *)

Definition num_min (a b : number) : number := if num_lt b a then b else a.
Definition num_max (a b : number) : number := if num_lt a b then b else a.

Definition risk_of (success quality : number) : string :=
  if num_lt (PyFloat 0.9) success && num_lt (PyFloat 0.95) quality
  then "LOW"
  else if num_lt (PyFloat 0.8) success && num_lt (PyFloat 0.9) quality
  then "MEDIUM"
  else "HIGH".

Section Derived.

Variable r : MigrationRequest.

Definition derived_batch_size : Z :=
  Z.max 1000 (num_int (num_mul (req_size_mb r) (PyInt 10))).

Definition derived_parallel_workers : Z :=
  Z.min 8 (Z.max 1 (Qtruncate (qval (req_size_mb r) / 1000))).

Definition derived_quality_score : number :=
  num_min (PyFloat 0.98)
    (num_add (req_current_quality r)
       (num_mul (num_sub (PyInt 1) (req_schema_complexity r)) (PyFloat 0.1))).

Definition derived_processing_time : number :=
  num_max (PyInt 5)
    (PyFloat (qval (req_size_mb r) / inject_Z (derived_parallel_workers * 100))).

Definition derived_resource_usage : number :=
  num_min (PyFloat 0.9)
    (num_add (req_cpu_utilization r) (req_memory_utilization r)).

Definition derived_success_probability : number :=
  num_max (PyFloat 0.7)
    (num_sub (PyInt 1) (num_mul (req_schema_complexity r) (PyFloat 0.3))).

Definition derived_risk_level : string :=
  risk_of derived_success_probability derived_quality_score.

Definition derived_strategy : Strategy := {|
  expected_performance := {|
    quality_score := VNum derived_quality_score;
    processing_time_minutes := VNum derived_processing_time;
    resource_usage := VNum derived_resource_usage;
    success_probability := VNum derived_success_probability |};
  action_parameters := {|
    batch_size := vint derived_batch_size;
    parallel_workers := vint derived_parallel_workers;
    compression_level := vint 6;
    validation_frequency := vfloat 0.1;
    retry_strategy := vint 1;
    resource_allocation := vfloat 0.8;
    checkpoint_frequency := vfloat 0.2;
    error_handling := vint 1 |};
  risk_assessment := {|
    risk_level := derived_risk_level;
    risk_factors := [
      [Lit "Schema complexity: "; Fixed2 (req_schema_complexity r)];
      [Lit "Data type: "; Display (req_data_type r)];
      [Lit "System compatibility: "; Display (req_source_system r);
       Lit " → "; Display (req_target_system r)] ];
    mitigation_strategies := [
      "Use incremental validation";
      "Implement rollback mechanisms";
      "Monitor resource usage closely" ] |};
  recommendations := {|
    primary_strategy :=
      [Lit "Batch processing with "; Display (vint derived_parallel_workers);
       Lit " workers"];
    fallback_strategy := {|
      fallback_batch_size := vint (derived_batch_size / 2);
      fallback_parallel_workers := vint (Z.max 1 (derived_parallel_workers / 2));
      fallback_compression_level := vint 3;
      fallback_validation_frequency := vfloat 0.05;
      fallback_resource_allocation := vfloat 0.6 |};
    monitoring_points := [
      {| metric := "data_quality"; frequency := "every 1000 records";
         threshold := "> 0.95" |};
      {| metric := "processing_speed"; frequency := "every 5 minutes";
         threshold := "> 1000 records/min" |};
      {| metric := "resource_usage"; frequency := "continuous";
         threshold := "< 0.9" |} ] |}
|}.

End Derived.

(** ** Observations on calls *)

(** A component of the returned value; an exception passes through. *)
Definition field {A B} (f : A -> B) (o : outcome A) : outcome B :=
  match o with
  | Return a => Return (f a)
  | Raise e => Raise e
  end.



(** Two exceptions of the same class. *)
Definition same_kind (e1 e2 : exn) : bool :=
  match e1, e2 with
  | KeyError _, KeyError _ => true
  | TypeError, TypeError => true
  | ValueError, ValueError => true
  | ZeroDivisionError, ZeroDivisionError => true
  | OverflowError, OverflowError => true
  | _, _ => false
  end.

(** A computation whose outcome does not depend on the object and which
    leaves the object as it was. *)
Definition stateless {A} (m : M A) : Prop :=
  exists o, forall self, m self = (o, self).

(** The object after a series of calls, each one either returning or
    raising to a caller that carries on. *)
Definition after_calls
    (calls : list (gmap string pyval * pyval * gmap string pyval))
    (self : MockMigrationOptimizer) : MockMigrationOptimizer :=
  fold_left
    (fun s '(table_info, current_quality, resource_constraints) =>
       after (optimize_migration_strategy table_info current_quality
                resource_constraints) s)
    calls self.

(** ** Sample calls *)

(** The form of the dashboard with its initial values. *)
Definition dashboard_table (size_mb : pyval) : gmap string pyval :=
  <["name" := VStr "users_table"]>
  (<["size_mb" := size_mb]>
  (<["schema_complexity" := vfloat 0.7]>
  (<["data_type" := VStr "structured"]>
  (<["source_system" := VStr "postgresql"]>
  (<["target_system" := VStr "spark"]>
  (<["priority" := vint 3]> ∅)))))).

Definition dashboard_constraints (cpu : pyval) : gmap string pyval :=
  <["cpu_utilization" := cpu]>
  (<["memory_utilization" := vfloat 0.7]>
  (<["network_bandwidth" := vfloat 0.8]>
  (<["disk_io" := vfloat 0.5]>
  (<["concurrent_migrations" := vint 2]> ∅)))).

Definition dashboard_request (size_mb : number) : MigrationRequest := {|
  req_size_mb := size_mb;
  req_schema_complexity := PyFloat 0.7;
  req_current_quality := PyFloat 0.85;
  req_cpu_utilization := PyFloat 0.6;
  req_memory_utilization := PyFloat 0.7;
  req_data_type := VStr "structured";
  req_source_system := VStr "postgresql";
  req_target_system := VStr "spark"
|}.

Definition dashboard_call (size_mb : pyval) : M Strategy :=
  optimize_migration_strategy
    (dashboard_table size_mb) (vfloat 0.85) (dashboard_constraints (vfloat 0.6)).



(** ** The remaining methods of the optimizer *)

Record TrainingResults : Type := {
  total_episodes : pyval;
  success_rate : Q;
  avg_reward : Q;
  avg_episode_length : Q
}.

Record TrainingReport : Type := {
  training_results : TrainingResults;
  plot_path : pyval
}.

(** [train_model]: the two-second pause is not modelled; the argument is
    passed through without any arithmetic on it. *)
Definition train_model (num_episodes : pyval) : M TrainingReport :=
  ret {| training_results := {|
           total_episodes := num_episodes;
           success_rate := 0.85;
           avg_reward := 0.72;
           avg_episode_length := 45.3 |};
         plot_path := VNone |}.

(** A reading of the clock, as [datetime.now()] returns it (without the
    microseconds, which the format below does not print). *)
Record datetime : Type := {
  year : Z;
  month : Z;
  day : Z;
  hour : Z;
  minute : Z;
  second : Z
}.

Definition digit (n : Z) : ascii := ascii_of_nat (Z.to_nat (48 + n mod 10)).

Definition two_digits (n : Z) : string :=
  String (digit (n / 10)) (String (digit n) EmptyString).

Definition four_digits (n : Z) : string :=
  String (digit (n / 1000))
    (String (digit (n / 100)) (String (digit (n / 10))
       (String (digit n) EmptyString))).

(** [strftime('%Y%m%d_%H%M%S')] *)
Definition strftime_compact (d : datetime) : string :=
  String.append (four_digits (year d))
    (String.append (two_digits (month d))
       (String.append (two_digits (day d))
          (String "_"
             (String.append (two_digits (hour d))
                (String.append (two_digits (minute d))
                   (two_digits (second d))))))).

(** The fields of a clock reading are in the ranges of the calendar, the
    year having four digits. *)
Record calendar (d : datetime) : Prop := {
  calendar_year : 1000 <= year d <= 9999;
  calendar_month : 1 <= month d <= 12;
  calendar_day : 1 <= day d <= 31;
  calendar_hour : 0 <= hour d <= 23;
  calendar_minute : 0 <= minute d <= 59;
  calendar_second : 0 <= second d <= 59
}.

(** [export_strategy_report]; [now] is what the clock reads during the call. *)
Definition export_strategy_report (strategy : Strategy) (now : datetime)
  : M string :=
  let timestamp := strftime_compact now in
  let filename :=
    String.append "migration_strategy_" (String.append timestamp ".json") in
  ret filename.

(** ** The dashboard ([app.py]) *)

Module App.

(** An entry of the session history. *)
Record HistoryEntry : Type := {
  timestamp : string;
  table_name : pyval;
  strategy : Strategy
}.

(** [st.session_state] *)
Record SessionState : Type := {
  rl_optimizer : MockMigrationOptimizer;
  optimization_history : list HistoryEntry;
  current_strategy : option Strategy;
  training_status : string;
  training_results : option TrainingReport
}.

(** What the widgets of the form hold when a button is pressed. *)
Record Form : Type := {
  w_table_name : pyval;
  w_table_size : pyval;
  w_schema_complexity : pyval;
  w_data_type : pyval;
  w_source_system : pyval;
  w_target_system : pyval;
  w_priority : pyval;
  w_current_quality : pyval;
  w_cpu_utilization : pyval;
  w_memory_utilization : pyval;
  w_network_bandwidth : pyval;
  w_disk_io : pyval;
  w_concurrent_migrations : pyval
}.

(** What a button press shows: a success box, or an error box with the
    exception it caught. *)
Inductive notice : Type :=
  | Success
  | Error (e : exn).

(** The first run of the script in a browser session. *)
Definition new_session : SessionState := {|
  rl_optimizer := init;
  optimization_history := [];
  current_strategy := None;
  training_status := "not_started";
  training_results := None
|}.

(** [migration_config['basic_info']] and
    [migration_config['resource_constraints']]; the two other sections of
    the configuration are built and never read. *)
Definition basic_info (f : Form) : gmap string pyval :=
  <["name" := w_table_name f]>
  (<["size_mb" := w_table_size f]>
  (<["schema_complexity" := w_schema_complexity f]>
  (<["data_type" := w_data_type f]>
  (<["source_system" := w_source_system f]>
  (<["target_system" := w_target_system f]>
  (<["priority" := w_priority f]> ∅)))))).

Definition resource_constraints (f : Form) : gmap string pyval :=
  <["cpu_utilization" := w_cpu_utilization f]>
  (<["memory_utilization" := w_memory_utilization f]>
  (<["network_bandwidth" := w_network_bandwidth f]>
  (<["disk_io" := w_disk_io f]>
  (<["concurrent_migrations" := w_concurrent_migrations f]> ∅)))).

(** The button "Generate Migration Strategy"; [now] is the ISO text of the
    clock reading taken for the history entry. *)
Definition click_generate (now : string) (f : Form) (s : SessionState)
  : notice * SessionState :=
  match optimize_migration_strategy (basic_info f) (w_current_quality f)
          (resource_constraints f) (rl_optimizer s) with
  | (Return result, optimizer) =>
      (Success,
       {| rl_optimizer := optimizer;
          optimization_history :=
            optimization_history s
            ++ [ {| timestamp := now;
                    table_name := w_table_name f;
                    strategy := result |} ];
          current_strategy := Some result;
          training_status := training_status s;
          training_results := training_results s |})
  | (Raise e, optimizer) =>
      (Error e,
       {| rl_optimizer := optimizer;
          optimization_history := optimization_history s;
          current_strategy := current_strategy s;
          training_status := training_status s;
          training_results := training_results s |})
  end.

(** The button "Train RL Model". *)
Definition click_train (s : SessionState) : notice * SessionState :=
  match train_model (vint 500) (rl_optimizer s) with
  | (Return results, optimizer) =>
      (Success,
       {| rl_optimizer := optimizer;
          optimization_history := optimization_history s;
          current_strategy := current_strategy s;
          training_status := "completed";
          training_results := Some results |})
  | (Raise e, optimizer) =>
      (Error e,
       {| rl_optimizer := optimizer;
          optimization_history := optimization_history s;
          current_strategy := current_strategy s;
          training_status := "failed";
          training_results := training_results s |})
  end.

(** The button "Export Strategy Report", drawn only under a non-empty
    history; it reports the file name when there is a current strategy. *)
Definition click_export (now : datetime) (s : SessionState)
  : option (outcome string) * SessionState :=
  match optimization_history s, current_strategy s with
  | _ :: _, Some current =>
      match export_strategy_report current now (rl_optimizer s) with
      | (report_path, optimizer) =>
          (Some report_path,
           {| rl_optimizer := optimizer;
              optimization_history := optimization_history s;
              current_strategy := current_strategy s;
              training_status := training_status s;
              training_results := training_results s |})
      end
  | _, _ => (None, s)
  end.

Inductive event : Type :=
  | Train
  | Generate (now : string) (f : Form)
  | Export (now : datetime).

Definition handle (s : SessionState) (ev : event) : SessionState :=
  match ev with
  | Train => snd (click_train s)
  | Generate now f => snd (click_generate now f s)
  | Export now => snd (click_export now s)
  end.

Definition run (events : list event) : SessionState :=
  fold_left handle events new_session.

Definition is_generate (ev : event) : bool :=
  match ev with
  | Generate _ _ => true
  | _ => false
  end.

(** The ranges the widgets enforce on the values used in the arithmetic:
    the size is an integer from 1 to 1000000, and the four sliders give
    floats from 0 to 1. *)
Record widget_ranges (f : Form) : Prop := {
  size_in_range :
    exists n, w_table_size f = vint n /\ 1 <= n <= 1000000;
  complexity_in_range :
    exists q, w_schema_complexity f = vfloat q /\ (0 <= q <= 1)%Q;
  quality_in_range :
    exists q, w_current_quality f = vfloat q /\ (0 <= q <= 1)%Q;
  cpu_in_range :
    exists q, w_cpu_utilization f = vfloat q /\ (0 <= q <= 1)%Q;
  memory_in_range :
    exists q, w_memory_utilization f = vfloat q /\ (0 <= q <= 1)%Q
}.

(** "Session Optimizations" of the sidebar. The script draws the sidebar
    before it reaches the handler of "Generate", so in the script run
    that handles the last press the figure is the length of the history
    as the presses before it left it. *)
Definition session_optimizations (events : list event) : Z :=
  Z.of_nat (length (optimization_history (run (removelast events)))).

(** "Total Strategies Generated" of the session summary, which is drawn
    after the handlers and only when the history is not empty. *)
Definition total_strategies_generated (s : SessionState) : option Z :=
  match optimization_history s with
  | [] => None
  | history => Some (Z.of_nat (length history))
  end.




(** A series of button presses whose forms are within the widget ranges. *)
Definition in_ranges (ev : event) : Prop :=
  match ev with
  | Generate _ f => widget_ranges f
  | _ => True
  end.

(** A history entry whose quality score is a number from 0 to 0.98. *)
Definition quality_within (entry : HistoryEntry) : Prop :=
  exists q,
    quality_score (expected_performance (strategy entry)) = VNum q
    /\ (0 <= qval q <= 0.98)%Q.

(** The dashboard form as it is first drawn, with a given size. *)
Definition default_form (size_mb : pyval) : Form := {|
  w_table_name := VStr "users_table";
  w_table_size := size_mb;
  w_schema_complexity := vfloat 0.7;
  w_data_type := VStr "structured";
  w_source_system := VStr "postgresql";
  w_target_system := VStr "spark";
  w_priority := vint 3;
  w_current_quality := vfloat 0.85;
  w_cpu_utilization := vfloat 0.6;
  w_memory_utilization := vfloat 0.7;
  w_network_bandwidth := vfloat 0.8;
  w_disk_io := vfloat 0.5;
  w_concurrent_migrations := vint 2
|}.

End App.

(** A clock reading used in examples: 4 November 2026, 14:14:07. *)
Definition sample_time : datetime :=
  {| year := 2026; month := 11; day := 4; hour := 14; minute := 14;
     second := 7 |}.

(** ** The method over binary64 floats

    The embedding above computes with exact rationals. This second
    embedding of the same method keeps the dynamic typing and the
    evaluation order and replaces the arithmetic by Python's own:
    integers are unbounded, floats are IEEE 754 binary64 values with the
    operations of [SpecFloat] (round to nearest, ties to even), an
    integer meeting a float is first converted, and [int()], the
    conversion and [/] on integers raise [OverflowError] when their
    result does not fit. *)

Module Binary64.

Local Open Scope Z_scope.

Definition prec : Z := 53.
Definition emax : Z := 1024.

Inductive number : Type :=
  | BInt (z : Z)
  | BFloat (f : spec_float).

Inductive pyval : Type :=
  | BNum (n : number)
  | BStr (s : string)
  | BNone.

Definition bint (z : Z) : pyval := BNum (BInt z).
Definition bfloat (f : spec_float) : pyval := BNum (BFloat f).

(** The quotient [a / b] of two integers ([b] not zero) rounded once to
    the nearest float: the quotient is taken with at least 64 significant
    bits and a sticky bit records a non-zero remainder. *)
Definition round_ratio (a b : Z) : spec_float :=
  let negative := xorb (a <? 0) (b <? 0) in
  let A := Z.abs a in
  let B := Z.abs b in
  if A =? 0 then S754_zero negative
  else
    let k := Z.max 0 (64 + Z.log2 B - Z.log2 A) in
    let (q, r) := Z.div_eucl (Z.shiftl A k) B in
    let m := 2 * q + (if r =? 0 then 0 else 1) in
    binary_normalize prec emax (if negative then - m else m) (- k - 1) false.

(** A decimal literal such as [0.98], read as [98 / 100]. *)
Definition literal (digits scale : Z) : spec_float := round_ratio digits scale.

Definition is_infinite (f : spec_float) : bool :=
  match f with
  | S754_infinity _ => true
  | _ => false
  end.

Definition is_zero (f : spec_float) : bool :=
  match f with
  | S754_zero _ => true
  | _ => false
  end.

Definition checked (f : spec_float) : outcome spec_float :=
  if is_infinite f then Raise OverflowError else Return f.

(** [float(z)] *)
Definition float_of_int (z : Z) : outcome spec_float :=
  checked (binary_normalize prec emax z 0 false).

Definition as_float (n : number) : outcome spec_float :=
  match n with
  | BInt z => float_of_int z
  | BFloat f => Return f
  end.

(** A float operation on two numbers, after the conversions. *)
Definition float_op (op : spec_float -> spec_float -> spec_float)
    (a b : number) : outcome number :=
  match as_float a with
  | Return x =>
      match as_float b with
      | Return y => Return (BFloat (op x y))
      | Raise e => Raise e
      end
  | Raise e => Raise e
  end.

Definition num_mul (a b : number) : outcome number :=
  match a, b with
  | BInt x, BInt y => Return (BInt (x * y))
  | _, _ => float_op (SFmul prec emax) a b
  end.

Definition num_add (a b : number) : outcome number :=
  match a, b with
  | BInt x, BInt y => Return (BInt (x + y))
  | _, _ => float_op (SFadd prec emax) a b
  end.

Definition num_sub (a b : number) : outcome number :=
  match a, b with
  | BInt x, BInt y => Return (BInt (x - y))
  | _, _ => float_op (SFsub prec emax) a b
  end.

(** [a / b] *)
Definition num_truediv (a b : number) : outcome number :=
  match a, b with
  | BInt x, BInt y =>
      if y =? 0 then Raise ZeroDivisionError
      else match checked (round_ratio x y) with
           | Return q => Return (BFloat q)
           | Raise e => Raise e
           end
  | _, _ =>
      match as_float a with
      | Return x =>
          match as_float b with
          | Return y =>
              if is_zero y then Raise ZeroDivisionError
              else Return (BFloat (SFdiv prec emax x y))
          | Raise e => Raise e
          end
      | Raise e => Raise e
      end
  end.

(** [int(x)] *)
Definition int_of_float (f : spec_float) : outcome Z :=
  match f with
  | S754_zero _ => Return 0
  | S754_finite negative m e =>
      let magnitude :=
        if 0 <=? e then Z.pos m * 2 ^ e else Z.pos m / 2 ^ (- e) in
      Return (if negative then - magnitude else magnitude)
  | S754_infinity _ => Raise OverflowError
  | S754_nan => Raise ValueError
  end.

Definition num_int (a : number) : outcome Z :=
  match a with
  | BInt z => Return z
  | BFloat f => int_of_float f
  end.

(** A float against an integer, compared by exact value. *)
Definition compare_float_int (f : spec_float) (z : Z) : option comparison :=
  match f with
  | S754_nan => None
  | S754_infinity negative => Some (if negative then Lt else Gt)
  | S754_zero _ => Some (0 ?= z)
  | S754_finite negative m e =>
      let v := if negative then Z.neg m else Z.pos m in
      Some (if 0 <=? e then (v * 2 ^ e ?= z) else (v ?= z * 2 ^ (- e)))
  end.

Definition num_compare (a b : number) : option comparison :=
  match a, b with
  | BInt x, BInt y => Some (x ?= y)
  | BFloat x, BFloat y => SFcompare x y
  | BFloat x, BInt y => compare_float_int x y
  | BInt x, BFloat y => option_map CompOpp (compare_float_int y x)
  end.

(** [a < b]; false when either side is NaN. *)
Definition num_lt (a b : number) : bool :=
  match num_compare a b with
  | Some Lt => true
  | _ => false
  end.

(** [a // b] on two integers. *)
Definition int_floordiv (x y : Z) : outcome number :=
  if y =? 0 then Raise ZeroDivisionError else Return (BInt (x / y)).

Definition lift_num (r : outcome number) : outcome pyval :=
  match r with
  | Return n => Return (BNum n)
  | Raise e => Raise e
  end.

Definition py_mul (a b : pyval) : outcome pyval :=
  match a, b with
  | BNum x, BNum y => lift_num (num_mul x y)
  | BStr s, BNum (BInt n) => Return (BStr (repeat_string (Z.to_nat n) s))
  | BNum (BInt n), BStr s => Return (BStr (repeat_string (Z.to_nat n) s))
  | _, _ => Raise TypeError
  end.

Definition py_add (a b : pyval) : outcome pyval :=
  match a, b with
  | BNum x, BNum y => lift_num (num_add x y)
  | BStr s, BStr t => Return (BStr (String.append s t))
  | _, _ => Raise TypeError
  end.

Definition py_sub (a b : pyval) : outcome pyval :=
  match a, b with
  | BNum x, BNum y => lift_num (num_sub x y)
  | _, _ => Raise TypeError
  end.

Definition py_truediv (a b : pyval) : outcome pyval :=
  match a, b with
  | BNum x, BNum y => lift_num (num_truediv x y)
  | _, _ => Raise TypeError
  end.

(** [a // b]; in this method both operands are always integers, and
    the floor division of floats is left out (it answers [TypeError]
    here, which the method can never observe). *)
Definition py_floordiv (a b : pyval) : outcome pyval :=
  match a, b with
  | BNum (BInt x), BNum (BInt y) => lift_num (int_floordiv x y)
  | _, _ => Raise TypeError
  end.

Definition py_int (a : pyval) : outcome pyval :=
  match a with
  | BNum x => match num_int x with
              | Return z => Return (bint z)
              | Raise e => Raise e
              end
  | BStr s => match int_of_string s with
              | Some z => Return (bint z)
              | None => Raise ValueError
              end
  | BNone => Raise TypeError
  end.

Definition py_lt (a b : pyval) : outcome bool :=
  match a, b with
  | BNum x, BNum y => Return (num_lt x y)
  | BStr s, BStr t => Return (String.ltb s t)
  | _, _ => Raise TypeError
  end.

Definition py_gt (a b : pyval) : outcome bool := py_lt b a.

Definition py_min (a b : pyval) : outcome pyval :=
  match py_lt b a with
  | Return lt => Return (if lt then b else a)
  | Raise e => Raise e
  end.

Definition py_max (a b : pyval) : outcome pyval :=
  match py_gt b a with
  | Return gt => Return (if gt then b else a)
  | Raise e => Raise e
  end.

Definition getitem (d : gmap string pyval) (k : string) : outcome pyval :=
  match d !! k with
  | Some v => Return v
  | None => Raise (KeyError k)
  end.

Inductive fpiece : Type :=
  | Lit (s : string)
  | Fixed2 (n : number)
  | Display (v : pyval).

Definition fstring : Type := list fpiece.

Definition format_2f (v : pyval) : outcome fpiece :=
  match v with
  | BNum n => Return (Fixed2 n)
  | BStr _ => Raise ValueError
  | BNone => Raise TypeError
  end.

Record ExpectedPerformance : Type := {
  quality_score : pyval;
  processing_time_minutes : pyval;
  resource_usage : pyval;
  success_probability : pyval
}.

Record ActionParameters : Type := {
  batch_size : pyval;
  parallel_workers : pyval;
  compression_level : pyval;
  validation_frequency : pyval;
  retry_strategy : pyval;
  resource_allocation : pyval;
  checkpoint_frequency : pyval;
  error_handling : pyval
}.

Record RiskAssessment : Type := {
  risk_level : string;
  risk_factors : list fstring;
  mitigation_strategies : list string
}.

Record FallbackStrategy : Type := {
  fallback_batch_size : pyval;
  fallback_parallel_workers : pyval;
  fallback_compression_level : pyval;
  fallback_validation_frequency : pyval;
  fallback_resource_allocation : pyval
}.

Record Recommendations : Type := {
  primary_strategy : fstring;
  fallback_strategy : FallbackStrategy;
  monitoring_points : list MonitoringPoint
}.

Record Strategy : Type := {
  expected_performance : ExpectedPerformance;
  action_parameters : ActionParameters;
  risk_assessment : RiskAssessment;
  recommendations : Recommendations
}.

Definition both_above (a x b y : pyval) : M bool :=
  l <- py_gt a x ;;
  if l then (r <- py_gt b y ;; ret r) else ret false.

Definition optimize_migration_strategy
    (table_info : gmap string pyval) (current_quality : pyval)
    (resource_constraints : gmap string pyval) : M Strategy :=
  (* batch_size = max(1000, int(table_info['size_mb'] * 10)) *)
  size_mb <- getitem table_info "size_mb" ;;
  t <- py_mul size_mb (bint 10) ;;
  t <- py_int t ;;
  batch_size <- py_max (bint 1000) t ;;
  (* parallel_workers = min(8, max(1, int(table_info['size_mb'] / 1000))) *)
  size_mb <- getitem table_info "size_mb" ;;
  t <- py_truediv size_mb (bint 1000) ;;
  t <- py_int t ;;
  t <- py_max (bint 1) t ;;
  parallel_workers <- py_min (bint 8) t ;;
  (* quality_score = min(0.98, current_quality
                           + (1 - table_info['schema_complexity']) * 0.1) *)
  schema_complexity <- getitem table_info "schema_complexity" ;;
  t <- py_sub (bint 1) schema_complexity ;;
  t <- py_mul t (bfloat (literal 1 10)) ;;
  t <- py_add current_quality t ;;
  quality_score <- py_min (bfloat (literal 98 100)) t ;;
  (* processing_time = max(5, table_info['size_mb'] / (parallel_workers * 100)) *)
  size_mb <- getitem table_info "size_mb" ;;
  t <- py_mul parallel_workers (bint 100) ;;
  t <- py_truediv size_mb t ;;
  processing_time <- py_max (bint 5) t ;;
  (* resource_usage = min(0.9, resource_constraints['cpu_utilization']
                              + resource_constraints['memory_utilization']) *)
  cpu_utilization <- getitem resource_constraints "cpu_utilization" ;;
  memory_utilization <- getitem resource_constraints "memory_utilization" ;;
  t <- py_add cpu_utilization memory_utilization ;;
  resource_usage <- py_min (bfloat (literal 9 10)) t ;;
  (* success_probability = max(0.7, 1 - table_info['schema_complexity'] * 0.3) *)
  schema_complexity <- getitem table_info "schema_complexity" ;;
  t <- py_mul schema_complexity (bfloat (literal 3 10)) ;;
  t <- py_sub (bint 1) t ;;
  success_probability <- py_max (bfloat (literal 7 10)) t ;;
  (* if ... elif ... else *)
  risk_level <<-
    (low <<- both_above success_probability (bfloat (literal 9 10))
                        quality_score (bfloat (literal 95 100)) ;;
     if low then ret "LOW"
     else (medium <<- both_above success_probability (bfloat (literal 8 10))
                                 quality_score (bfloat (literal 9 10)) ;;
           if medium then ret "MEDIUM" else ret "HIGH")) ;;
  (* the dictionary display, entries evaluated top to bottom *)
  schema_complexity <- getitem table_info "schema_complexity" ;;
  complexity_text <- format_2f schema_complexity ;;
  data_type <- getitem table_info "data_type" ;;
  source_system <- getitem table_info "source_system" ;;
  target_system <- getitem table_info "target_system" ;;
  half_batch <- py_floordiv batch_size (bint 2) ;;
  t <- py_floordiv parallel_workers (bint 2) ;;
  half_workers <- py_max (bint 1) t ;;
  ret {|
    expected_performance := {|
      quality_score := quality_score;
      processing_time_minutes := processing_time;
      resource_usage := resource_usage;
      success_probability := success_probability |};
    action_parameters := {|
      batch_size := batch_size;
      parallel_workers := parallel_workers;
      compression_level := bint 6;
      validation_frequency := bfloat (literal 1 10);
      retry_strategy := bint 1;
      resource_allocation := bfloat (literal 8 10);
      checkpoint_frequency := bfloat (literal 2 10);
      error_handling := bint 1 |};
    risk_assessment := {|
      risk_level := risk_level;
      risk_factors := [
        [Lit "Schema complexity: "; complexity_text];
        [Lit "Data type: "; Display data_type];
        [Lit "System compatibility: "; Display source_system;
         Lit " → "; Display target_system] ];
      mitigation_strategies := [
        "Use incremental validation";
        "Implement rollback mechanisms";
        "Monitor resource usage closely" ] |};
    recommendations := {|
      primary_strategy :=
        [Lit "Batch processing with "; Display parallel_workers; Lit " workers"];
      fallback_strategy := {|
        fallback_batch_size := half_batch;
        fallback_parallel_workers := half_workers;
        fallback_compression_level := bint 3;
        fallback_validation_frequency := bfloat (literal 5 100);
        fallback_resource_allocation := bfloat (literal 6 10) |};
      monitoring_points := [
        {| metric := "data_quality"; frequency := "every 1000 records";
           threshold := "> 0.95" |};
        {| metric := "processing_speed"; frequency := "every 5 minutes";
           threshold := "> 1000 records/min" |};
        {| metric := "resource_usage"; frequency := "continuous";
           threshold := "< 0.9" |} ] |}
  |}.

(** The scalars of a request whose arithmetic inputs are numbers. *)
Record MigrationRequest : Type := {
  req_size_mb : number;
  req_schema_complexity : number;
  req_current_quality : number;
  req_cpu_utilization : number;
  req_memory_utilization : number;
  req_data_type : pyval;
  req_source_system : pyval;
  req_target_system : pyval
}.

Record carries (table_info : gmap string pyval) (current_quality : pyval)
    (resource_constraints : gmap string pyval) (r : MigrationRequest) : Prop := {
  carries_size_mb :
    table_info !! "size_mb" = Some (BNum (req_size_mb r));
  carries_schema_complexity :
    table_info !! "schema_complexity" = Some (BNum (req_schema_complexity r));
  carries_data_type :
    table_info !! "data_type" = Some (req_data_type r);
  carries_source_system :
    table_info !! "source_system" = Some (req_source_system r);
  carries_target_system :
    table_info !! "target_system" = Some (req_target_system r);
  carries_current_quality :
    current_quality = BNum (req_current_quality r);
  carries_cpu_utilization :
    resource_constraints !! "cpu_utilization"
      = Some (BNum (req_cpu_utilization r));
  carries_memory_utilization :
    resource_constraints !! "memory_utilization"
      = Some (BNum (req_memory_utilization r))
}.

Definition as_number (v : pyval) : option number :=
  match v with
  | BNum n => Some n
  | _ => None
  end.

Definition is_float (n : number) : Prop :=
  match n with
  | BFloat _ => True
  | BInt _ => False
  end.

(** A required key that its dictionary lacks. *)
Definition missing_key (table_info resource_constraints : gmap string pyval)
    (k : string) : Prop :=
  (In k table_info_keys /\ table_info !! k = None)
  \/ (In k resource_constraints_keys /\ resource_constraints !! k = None).

(** One of the five arithmetic inputs is present but is not a number. *)
Definition non_numeric (table_info : gmap string pyval) (current_quality : pyval)
    (resource_constraints : gmap string pyval) : Prop :=
  exists v, as_number v = None
    /\ (table_info !! "size_mb" = Some v
        \/ table_info !! "schema_complexity" = Some v
        \/ current_quality = v
        \/ resource_constraints !! "cpu_utilization" = Some v
        \/ resource_constraints !! "memory_utilization" = Some v).

Definition num_min (a b : number) : number := if num_lt b a then b else a.
Definition num_max (a b : number) : number := if num_lt a b then b else a.

(** The risk level chosen for a success probability and a quality score. *)
Definition risk_of (success quality : number) : string :=
  if num_lt (BFloat (literal 9 10)) success
     && num_lt (BFloat (literal 95 100)) quality
  then "LOW"
  else if num_lt (BFloat (literal 8 10)) success
          && num_lt (BFloat (literal 9 10)) quality
  then "MEDIUM"
  else "HIGH".

(** The two dictionaries of the demo script, with the given values in
    their arithmetic keys. *)
Definition table (size_mb schema_complexity : pyval) : gmap string pyval :=
  <["name" := BStr "demo_table"]>
  (<["size_mb" := size_mb]>
  (<["schema_complexity" := schema_complexity]>
  (<["data_type" := BStr "structured"]>
  (<["source_system" := BStr "postgresql"]>
  (<["target_system" := BStr "bigquery"]>
  (<["priority" := bint 3]> ∅)))))).

Definition constraints (cpu memory : pyval) : gmap string pyval :=
  <["cpu_utilization" := cpu]>
  (<["memory_utilization" := memory]>
  (<["network_bandwidth" := bfloat (literal 9 10)]>
  (<["disk_io" := bfloat (literal 6 10)]>
  (<["concurrent_migrations" := bint 2]> ∅)))).

(** [quick_start.py]: size 1000, complexity 0.6, quality 0.85, cpu 0.7,
    memory 0.8. *)
Definition quick_start_call : M Strategy :=
  optimize_migration_strategy
    (table (bint 1000) (bfloat (literal 6 10))) (bfloat (literal 85 100))
    (constraints (bfloat (literal 7 10)) (bfloat (literal 8 10))).

(** A call with the given size; the four other inputs are floats (0.7,
    0.85, 0.6 and 0.7, the initial positions of the dashboard's
    sliders). *)
Definition sized_call (size_mb : pyval) : M Strategy :=
  optimize_migration_strategy
    (table size_mb (bfloat (literal 7 10))) (bfloat (literal 85 100))
    (constraints (bfloat (literal 6 10)) (bfloat (literal 7 10))).

(** Ill-formed calls: no [size_mb] key; [size_mb] is [None]; [size_mb]
    is text; [current_quality] is [None]; [cpu_utilization] is [None]. *)
Definition missing_size_call : M Strategy :=
  optimize_migration_strategy
    (delete "size_mb" (table (bint 2500) (bfloat (literal 7 10))))
    (bfloat (literal 85 100))
    (constraints (bfloat (literal 6 10)) (bfloat (literal 7 10))).

Definition none_quality_call : M Strategy :=
  optimize_migration_strategy
    (table (bint 2500) (bfloat (literal 7 10))) BNone
    (constraints (bfloat (literal 6 10)) (bfloat (literal 7 10))).

Definition none_cpu_call : M Strategy :=
  optimize_migration_strategy
    (table (bint 2500) (bfloat (literal 7 10))) (bfloat (literal 85 100))
    (constraints BNone (bfloat (literal 7 10))).

End Binary64.

(** ** Lemmas on the built-ins *)

Lemma Qltb_true (x y : Q) : Qltb x y = true <-> (x < y)%Q.
Proof.
  unfold Qltb. rewrite Qlt_alt. destruct (x ?= y)%Q; split; congruence.
Qed.

Lemma Qltb_false (x y : Q) : Qltb x y = false <-> (y <= x)%Q.
Proof.
  split; intro H.
  - apply Qnot_lt_le. intro Hlt. apply Qltb_true in Hlt. congruence.
  - destruct (Qltb x y) eqn:E; [|reflexivity].
    apply Qltb_true in E. exfalso. exact (Qlt_not_le _ _ E H).
Qed.

Lemma num_lt_int (a b : Z) : num_lt (PyInt a) (PyInt b) = (a <? b)%Z.
Proof.
  unfold num_lt, Qltb, Qcompare, Z.ltb. cbn [qval inject_Z Qnum Qden].
  now rewrite !Z.mul_1_r.
Qed.

Lemma num_max_int (a b : Z) : num_max (PyInt a) (PyInt b) = PyInt (Z.max a b).
Proof.
  unfold num_max. rewrite num_lt_int.
  destruct (Z.ltb_spec a b); f_equal; lia.
Qed.

Lemma num_min_int (a b : Z) : num_min (PyInt a) (PyInt b) = PyInt (Z.min a b).
Proof.
  unfold num_min. rewrite num_lt_int.
  destruct (Z.ltb_spec b a); f_equal; lia.
Qed.

Lemma py_max_num (a b : number) :
  py_max (VNum a) (VNum b) = Return (VNum (num_max a b)).
Proof. unfold py_max, py_gt, py_lt, num_max. now destruct (num_lt a b). Qed.

Lemma py_min_num (a b : number) :
  py_min (VNum a) (VNum b) = Return (VNum (num_min a b)).
Proof. unfold py_min, py_lt, num_min. now destruct (num_lt b a). Qed.

Lemma Qis_zero_int (z : Z) : Qis_zero (inject_Z z) = (z =? 0)%Z.
Proof.
  unfold Qis_zero, Qeq_bool, Z.eqb. cbn [inject_Z Qnum Qden].
  now rewrite Z.mul_1_r.
Qed.

Lemma num_min_le_l (a b : number) : (qval (num_min a b) <= qval a)%Q.
Proof.
  unfold num_min, num_lt. destruct (Qltb (qval b) (qval a)) eqn:E.
  - apply Qltb_true in E. now apply Qlt_le_weak.
  - apply Qle_refl.
Qed.



Lemma py_mul_num (a b : number) :
  py_mul (VNum a) (VNum b) = Return (VNum (num_mul a b)).
Proof. now destruct a. Qed.

Lemma py_add_num (a b : number) :
  py_add (VNum a) (VNum b) = Return (VNum (num_add a b)).
Proof. reflexivity. Qed.

Lemma py_sub_num (a b : number) :
  py_sub (VNum a) (VNum b) = Return (VNum (num_sub a b)).
Proof. reflexivity. Qed.

Lemma py_int_num (a : number) : py_int (VNum a) = Return (VNum (PyInt (num_int a))).
Proof. reflexivity. Qed.

Lemma py_truediv_int (a : number) (z : Z) :
  z <> 0 ->
  py_truediv (VNum a) (VNum (PyInt z))
  = Return (VNum (PyFloat (qval a / inject_Z z))).
Proof.
  intro Hz. unfold py_truediv, num_truediv. cbn [qval].
  rewrite Qis_zero_int. now destruct (Z.eqb_spec z 0).
Qed.

Lemma py_floordiv_int (a z : Z) :
  z <> 0 ->
  py_floordiv (VNum (PyInt a)) (VNum (PyInt z)) = Return (VNum (PyInt (a / z))).
Proof.
  intro Hz. unfold py_floordiv, num_floordiv. cbn [qval].
  rewrite Qis_zero_int. now destruct (Z.eqb_spec z 0).
Qed.

Lemma both_above_num (a x b y : number) (self : MockMigrationOptimizer) :
  both_above (VNum a) (VNum x) (VNum b) (VNum y) self
  = (Return (num_lt x a && num_lt y b), self).
Proof.
  unfold both_above, bind, builtin, ret, py_gt, py_lt.
  now destruct (num_lt x a).
Qed.

Lemma risk_block_num {A} (sp qs : number) (k : string -> M A) self :
  bind
    (bind (both_above (VNum sp) (VNum (PyFloat 0.9))
                      (VNum qs) (VNum (PyFloat 0.95)))
       (fun low =>
          if low then ret "LOW"
          else bind (both_above (VNum sp) (VNum (PyFloat 0.8))
                                (VNum qs) (VNum (PyFloat 0.9)))
                 (fun medium => if medium then ret "MEDIUM" else ret "HIGH")))
    k self
  = k (risk_of sp qs) self.
Proof.
  unfold risk_of. unfold bind at 1. unfold bind at 1.
  rewrite both_above_num.
  destruct (num_lt (PyFloat 0.9) sp && num_lt (PyFloat 0.95) qs);
    [reflexivity|].
  unfold bind at 1. rewrite both_above_num.
  now destruct (num_lt (PyFloat 0.8) sp && num_lt (PyFloat 0.9) qs).
Qed.

Ltac py_step :=
  first
    [ rewrite py_mul_num | rewrite py_add_num | rewrite py_sub_num
    | rewrite py_int_num | rewrite py_max_num | rewrite py_min_num
    | rewrite num_max_int | rewrite num_min_int
    | rewrite py_truediv_int by lia | rewrite py_floordiv_int by lia
    | rewrite risk_block_num ];
  cbn [bind builtin ret num_mul num_int format_2f].

(** A call on a well-typed request returns [derived_strategy] and leaves
    the object as it was. *)
Lemma optimize_carries table_info current_quality resource_constraints r self :
  carries table_info current_quality resource_constraints r ->
  optimize_migration_strategy table_info current_quality resource_constraints self
  = (Return (derived_strategy r), self).
Proof.
  intros [Hsz Hsc Hdt Hsrc Htgt -> Hcpu Hmem].
  unfold optimize_migration_strategy, getitem, vint, vfloat.
  rewrite Hsz, Hsc, Hdt, Hsrc, Htgt, Hcpu, Hmem.
  cbn [bind builtin ret].
  repeat py_step.
  reflexivity.
Qed.

(** ** Truncation, floor and the clamp *)

Lemma Qnum_nonneg (q : Q) : (0 <= q)%Q -> 0 <= Qnum q.
Proof. unfold Qle. cbn [Qnum Qden]. lia. Qed.

Lemma Qtruncate_floor (q : Q) : (0 <= q)%Q -> Qtruncate q = Qfloor q.
Proof.
  intro H. apply Qnum_nonneg in H. destruct q as [n d].
  unfold Qtruncate, Qfloor. cbn [Qnum Qden] in *.
  apply Z.quot_div_nonneg; lia.
Qed.


Lemma scaled_size_int (n : number) :
  (0 <= qval n)%Q -> num_int (num_mul n (PyInt 10)) = Qfloor (qval n * 10).
Proof.
  destruct n as [z|q]; cbn [num_mul num_int qval]; intro H.
  - unfold Qfloor, Qmult, inject_Z. cbn [Qnum Qden].
    now rewrite Z.div_1_r.
  - apply Qtruncate_floor. apply Qmult_le_0_compat; [exact H | easy].
Qed.






(** ** Thresholds and bounds *)







(** ** The optimizer object is neither read nor written *)

Lemma stateless_ret {A} (a : A) : stateless (ret a).
Proof. now exists (Return a). Qed.

Lemma stateless_builtin {A} (r : outcome A) : stateless (builtin r).
Proof. now exists r. Qed.

Lemma stateless_bind {A B} (m : M A) (k : A -> M B) :
  stateless m -> (forall a, stateless (k a)) -> stateless (bind m k).
Proof.
  intros [o Ho] Hk. destruct o as [a|e].
  - destruct (Hk a) as [o' Ho']. exists o'. intro self.
    unfold bind. now rewrite Ho, Ho'.
  - exists (Raise e). intro self. unfold bind. now rewrite Ho.
Qed.

Ltac stateless_steps :=
  repeat first
    [ apply stateless_ret
    | apply stateless_builtin
    | apply stateless_bind; [|intros ?]
    | match goal with
      | |- stateless (if ?b then _ else _) => destruct b
      end ].

Lemma stateless_both_above (a x b y : pyval) : stateless (both_above a x b y).
Proof. unfold both_above. stateless_steps. Qed.

Lemma optimize_stateless table_info current_quality resource_constraints :
  stateless
    (optimize_migration_strategy table_info current_quality resource_constraints).
Proof.
  unfold optimize_migration_strategy.
  repeat (stateless_steps; try apply stateless_both_above).
Qed.

Lemma after_calls_unchanged calls self : after_calls calls self = self.
Proof.
  unfold after_calls. revert self.
  induction calls as [|[[ti cq] rc] calls IH]; intro self; cbn [fold_left].
  - reflexivity.
  - destruct (optimize_stateless ti cq rc) as [o Ho].
    unfold after at 2. rewrite Ho. cbn [snd]. apply IH.
Qed.



(** C10: a call leaves [optimization_history] and [current_migration]
    as they were, whether it returns or raises; so on a fresh optimizer
    [get_performance_metrics] reports zero optimizations after any
    number of calls. *)
Theorem optimize_leaves_optimizer_unchanged :
  (forall table_info current_quality resource_constraints self,
     let self' := after (optimize_migration_strategy table_info
                    current_quality resource_constraints) self in
     self' = self
     /\ optimization_history self' = optimization_history self
     /\ current_migration self' = current_migration self)
  /\ (forall calls,
       field total_optimizations
         (result get_performance_metrics (after_calls calls init))
       = Return 0).
Proof.
  split.
  - intros ti cq rc self self'.
    assert (self' = self) as ->; [|now repeat split].
    unfold self', after.
    destruct (optimize_stateless ti cq rc) as [o Ho]. now rewrite Ho.
  - intro calls. now rewrite after_calls_unchanged.
Qed.

(** ** Ill-formed requests *)

Ltac blame_key :=
  solve [ left; split; [cbn [In table_info_keys]; tauto | assumption]
        | right; split; [cbn [In resource_constraints_keys]; tauto | assumption] ].

Ltac blame_value :=
  first
    [ exists VNone; split; [reflexivity | solve [intuition (auto; reflexivity)]]
    | match goal with
      | s : string |- _ =>
          exists (VStr s); split;
          [reflexivity | solve [intuition (auto; reflexivity)]]
      end ].

Ltac raises e :=
  exists e; split; [reflexivity | first [blame_key | blame_value]].

(** ** Further properties of the derivation *)





(** X1: the outcome of a call depends on the dictionaries only through
    the seven keys the method reads: any two calls that agree on those
    keys (and on [current_quality]) have the same outcome, be it a
    strategy or an exception. *)
Theorem unread_keys_are_ignored
    (table_info table_info' : gmap string pyval) (current_quality : pyval)
    (resource_constraints resource_constraints' : gmap string pyval) self :
  (forall k, In k table_info_keys -> table_info !! k = table_info' !! k) ->
  (forall k, In k resource_constraints_keys ->
             resource_constraints !! k = resource_constraints' !! k) ->
  optimize_migration_strategy table_info current_quality
    resource_constraints self
  = optimize_migration_strategy table_info' current_quality
      resource_constraints' self.
Proof.
  intros Ht Hr. unfold optimize_migration_strategy, getitem.
  rewrite (Ht "size_mb"), (Ht "schema_complexity"), (Ht "data_type"),
    (Ht "source_system"), (Ht "target_system"),
    (Hr "cpu_utilization"), (Hr "memory_utilization");
    solve [reflexivity
          | cbn [In table_info_keys resource_constraints_keys]; tauto].
Qed.

Lemma unread_keys_are_ignored_dashboard :
  optimize_migration_strategy (dashboard_table (vint 2500)) (vfloat 0.85)
    (dashboard_constraints (vfloat 0.6)) init
  = optimize_migration_strategy
      (<["priority" := VNone]> (delete "name" (dashboard_table (vint 2500))))
      (vfloat 0.85)
      (<["disk_io" := VStr "slow"]> (dashboard_constraints (vfloat 0.6))) init.
Proof.
  apply (unread_keys_are_ignored
           (dashboard_table (vint 2500))
           (<["priority" := VNone]> (delete "name" (dashboard_table (vint 2500))))
           (vfloat 0.85)
           (dashboard_constraints (vfloat 0.6))
           (<["disk_io" := VStr "slow"]> (dashboard_constraints (vfloat 0.6)))
           init).
  - intros k Hk. cbn [In table_info_keys] in Hk.
    repeat (destruct Hk as [<-|Hk]; [vm_compute; reflexivity|]).
    destruct Hk.
  - intros k Hk. cbn [In resource_constraints_keys] in Hk.
    repeat (destruct Hk as [<-|Hk]; [vm_compute; reflexivity|]).
    destruct Hk.
Defined.







Lemma qval_num_add (a b : number) :
  (qval (num_add a b) == qval a + qval b)%Q.
Proof.
  destruct a, b; cbn [num_add qval]; try reflexivity.
  now rewrite inject_Z_plus.
Qed.

Lemma qval_num_sub (a b : number) :
  (qval (num_sub a b) == qval a - qval b)%Q.
Proof.
  destruct a, b; cbn [num_sub qval]; try reflexivity.
  unfold Z.sub, Qminus. now rewrite inject_Z_plus, inject_Z_opp.
Qed.

Lemma qval_num_mul (a b : number) :
  (qval (num_mul a b) == qval a * qval b)%Q.
Proof.
  destruct a, b; cbn [num_mul qval]; reflexivity.
Qed.


Lemma num_min_cases (a b : number) :
  ((qval b < qval a)%Q /\ num_min a b = b)
  \/ ((qval a <= qval b)%Q /\ num_min a b = a).
Proof.
  unfold num_min, num_lt. destruct (Qltb (qval b) (qval a)) eqn:E.
  - left. now apply Qltb_true in E.
  - right. now apply Qltb_false in E.
Qed.






(** X7: a size given as text never yields a strategy, even when the text
    spells a number, whatever the other arguments are: the batch size is
    computed from the text repeated ten times, so the call raises
    [ValueError] or [TypeError]; for ASCII text of at most 430
    characters (so that the repetition stays within the interpreter's
    limit of 4300 digits) it is [ValueError] when the repetition is not
    an integer literal, and [TypeError], at the division, when it is. *)
Theorem text_size_never_returns
    (table_info : gmap string pyval) current_quality resource_constraints
    (s : string) self :
  table_info !! "size_mb" = Some (VStr s) ->
  (result (optimize_migration_strategy table_info current_quality
             resource_constraints) self = Raise ValueError
   \/ result (optimize_migration_strategy table_info current_quality
                resource_constraints) self = Raise TypeError)
  /\ (is_ascii s -> (String.length s <= 430)%nat ->
      result (optimize_migration_strategy table_info current_quality
                resource_constraints) self
      = Raise (match int_of_string (repeat_string 10 s) with
               | Some _ => TypeError
               | None => ValueError
               end)).
Proof.
  intro Hsz.
  assert (result (optimize_migration_strategy table_info current_quality
                    resource_constraints) self
          = Raise (match int_of_string (repeat_string 10 s) with
                   | Some _ => TypeError
                   | None => ValueError
                   end)) as E.
  { unfold result, optimize_migration_strategy, getitem.
    rewrite Hsz. cbn [bind builtin ret py_mul vint].
    change (Z.to_nat 10) with 10%nat.
    unfold py_int at 1.
    destruct (int_of_string (repeat_string 10 s)) as [z|];
      cbn [bind builtin ret fst]; [|reflexivity].
    unfold vint. rewrite py_max_num. reflexivity. }
  split; [|intros _ _; exact E].
  rewrite E. destruct (int_of_string _); [right | left]; reflexivity.
Qed.

Lemma text_size_never_returns_numeral :
  (result (dashboard_call (VStr "1000")) init = Raise ValueError
   \/ result (dashboard_call (VStr "1000")) init = Raise TypeError)
  /\ (is_ascii "1000" -> (String.length "1000" <= 430)%nat ->
      result (dashboard_call (VStr "1000")) init
      = Raise (match int_of_string (repeat_string 10 "1000") with
               | Some _ => TypeError
               | None => ValueError
               end)).
Proof.
  apply (text_size_never_returns
           (dashboard_table (VStr "1000")) (vfloat 0.85)
           (dashboard_constraints (vfloat 0.6)) "1000" init).
  reflexivity.
Defined.

Ltac other_exception Hk :=
  let H := fresh "H" in
  intro H;
  first
    [ discriminate H
    | injection H as <-; cbn [In] in Hk;
      repeat (destruct Hk as [Hk|Hk]; [discriminate Hk|]); destruct Hk ].

(** X8: the three text keys are looked up after all the arithmetic: when
    a call raises [KeyError] for [data_type], [source_system] or
    [target_system], that key is indeed missing and the five arithmetic
    inputs were all present and numbers. *)
Theorem text_keys_are_read_last
    (table_info : gmap string pyval) current_quality
    (resource_constraints : gmap string pyval) self (k : string) :
  In k ["data_type"; "source_system"; "target_system"] ->
  result (optimize_migration_strategy table_info current_quality
            resource_constraints) self = Raise (KeyError k) ->
  table_info !! k = None
  /\ exists size sc quality cpu mem,
       table_info !! "size_mb" = Some (VNum size)
       /\ table_info !! "schema_complexity" = Some (VNum sc)
       /\ current_quality = VNum quality
       /\ resource_constraints !! "cpu_utilization" = Some (VNum cpu)
       /\ resource_constraints !! "memory_utilization" = Some (VNum mem).
Proof.
  intro Hk.
  unfold result, optimize_migration_strategy, getitem, vint, vfloat.
  destruct (table_info !! "size_mb") as [[size|s|]|] eqn:Hsz;
    cbn [bind builtin ret fst];
    [ | cbn [py_mul]; cbn [bind builtin ret fst] | other_exception Hk
      | other_exception Hk ].
  2:{ destruct (py_int _) as [v|e] eqn:Hint; cbn [bind builtin ret fst];
        unfold py_int in Hint; destruct (int_of_string _);
        try discriminate; injection Hint as <-.
      - unfold vint. rewrite py_max_num.
        cbn [bind builtin ret py_truediv fst]. other_exception Hk.
      - other_exception Hk. }
  repeat py_step.
  destruct (table_info !! "schema_complexity") as [[sc|s|]|] eqn:Hsc;
    cbn [bind builtin ret fst];
    [ | other_exception Hk | other_exception Hk | other_exception Hk ].
  repeat py_step.
  destruct current_quality as [quality|s|];
    [ | other_exception Hk | other_exception Hk ].
  repeat py_step.
  destruct (resource_constraints !! "cpu_utilization") as [cpu|] eqn:Hcpu;
    cbn [bind builtin ret fst]; [ | other_exception Hk ].
  destruct (resource_constraints !! "memory_utilization") as [mem|] eqn:Hmem;
    cbn [bind builtin ret fst]; [ | other_exception Hk ].
  destruct cpu as [cpu|s|], mem as [mem|t|];
    try (cbn; other_exception Hk).
  repeat py_step.
  destruct (table_info !! "data_type") as [dt|] eqn:Hdt;
    cbn [bind builtin ret fst];
    [ | intro H; injection H as <-; split; [assumption|];
        exists size, sc, quality, cpu, mem; repeat split ].
  destruct (table_info !! "source_system") as [src|] eqn:Hsrc;
    cbn [bind builtin ret fst];
    [ | intro H; injection H as <-; split; [assumption|];
        exists size, sc, quality, cpu, mem; repeat split ].
  destruct (table_info !! "target_system") as [tgt|] eqn:Htgt;
    cbn [bind builtin ret fst];
    [ | intro H; injection H as <-; split; [assumption|];
        exists size, sc, quality, cpu, mem; repeat split ].
  discriminate.
Qed.

Lemma text_keys_are_read_last_data_type :
  delete "data_type" (dashboard_table (vint 2500)) !! "data_type" = None
  /\ exists size sc quality cpu mem,
       delete "data_type" (dashboard_table (vint 2500)) !! "size_mb"
       = Some (VNum size)
       /\ delete "data_type" (dashboard_table (vint 2500))
            !! "schema_complexity" = Some (VNum sc)
       /\ vfloat 0.85 = VNum quality
       /\ dashboard_constraints (vfloat 0.6) !! "cpu_utilization"
          = Some (VNum cpu)
       /\ dashboard_constraints (vfloat 0.6) !! "memory_utilization"
          = Some (VNum mem).
Proof.
  apply (text_keys_are_read_last
           (delete "data_type" (dashboard_table (vint 2500))) (vfloat 0.85)
           (dashboard_constraints (vfloat 0.6)) init "data_type").
  - cbn [In]. left. reflexivity.
  - vm_compute. reflexivity.
Defined.

(** ** The report file name *)

Lemma digit_inj (a b : Z) : digit a = digit b -> a mod 10 = b mod 10.
Proof.
  unfold digit. intro H.
  pose proof (Z.mod_pos_bound a 10 ltac:(lia)) as Ha.
  pose proof (Z.mod_pos_bound b 10 ltac:(lia)) as Hb.
  apply (f_equal nat_of_ascii) in H.
  rewrite !nat_ascii_embedding in H by lia. lia.
Qed.

Lemma two_digits_inj (a b : Z) :
  0 <= a <= 99 -> 0 <= b <= 99 -> two_digits a = two_digits b -> a = b.
Proof.
  intros Ha Hb H. unfold two_digits in H.
  injection H as H1 H0. apply digit_inj in H1, H0.
  Z.div_mod_to_equations. lia.
Qed.

Lemma four_digits_inj (a b : Z) :
  0 <= a <= 9999 -> 0 <= b <= 9999 -> four_digits a = four_digits b -> a = b.
Proof.
  intros Ha Hb H. unfold four_digits in H.
  injection H as H3 H2 H1 H0. apply digit_inj in H3, H2, H1, H0.
  Z.div_mod_to_equations. lia.
Qed.

(** X9: [export_strategy_report] ignores the strategy it is given and
    writes nothing: its result is a 39-character name made of the clock
    reading alone, so two exports get the same name exactly when their
    clock readings agree to the second. *)
Theorem export_name_is_the_clock_reading
    (strategy strategy' : Strategy) (now now' : datetime) self self' :
  calendar now -> calendar now' ->
  exists name name',
    export_strategy_report strategy now self = (Return name, self)
    /\ export_strategy_report strategy' now' self' = (Return name', self')
    /\ String.length name = 39%nat
    /\ String.prefix "migration_strategy_" name = true
    /\ (name = name' <-> now = now').
Proof.
  intros [Hy Hmo Hd Hh Hmi Hs] [Hy' Hmo' Hd' Hh' Hmi' Hs'].
  eexists. eexists.
  split; [reflexivity|]. split; [reflexivity|].
  split; [reflexivity|]. split; [reflexivity|].
  split; [|now intros <-].
  intro H. unfold strftime_compact in H.
  cbn [String.append four_digits two_digits] in H.
  injection H as Y3 Y2 Y1 Y0 M1 M0 D1 D0 H1 H0 N1 N0 S1 S0.
  assert (year now = year now') as Ey.
  { apply four_digits_inj; [lia | lia |]. unfold four_digits. congruence. }
  assert (month now = month now') as Emo.
  { apply two_digits_inj; [lia | lia |]. unfold two_digits. congruence. }
  assert (day now = day now') as Ed.
  { apply two_digits_inj; [lia | lia |]. unfold two_digits. congruence. }
  assert (hour now = hour now') as Eh.
  { apply two_digits_inj; [lia | lia |]. unfold two_digits. congruence. }
  assert (minute now = minute now') as Emi.
  { apply two_digits_inj; [lia | lia |]. unfold two_digits. congruence. }
  assert (second now = second now') as Es.
  { apply two_digits_inj; [lia | lia |]. unfold two_digits. congruence. }
  destruct now, now'. cbn in *. congruence.
Qed.

Lemma export_name_is_the_clock_reading_sample :
  exists name name',
    export_strategy_report
      (derived_strategy (dashboard_request (PyInt 2500))) sample_time init
    = (Return name, init)
    /\ export_strategy_report
         (derived_strategy (dashboard_request (PyInt 1)))
         {| year := 2026; month := 11; day := 4; hour := 14; minute := 14;
            second := 8 |} init
       = (Return name', init)
    /\ String.length name = 39%nat
    /\ String.prefix "migration_strategy_" name = true
    /\ (name = name' <->
        sample_time
        = {| year := 2026; month := 11; day := 4; hour := 14; minute := 14;
             second := 8 |}).
Proof.
  apply (export_name_is_the_clock_reading
           (derived_strategy (dashboard_request (PyInt 2500)))
           (derived_strategy (dashboard_request (PyInt 1)))
           sample_time
           {| year := 2026; month := 11; day := 4; hour := 14; minute := 14;
              second := 8 |} init init).
  - split; cbn; lia.
  - split; cbn; lia.
Defined.

(** ** The dashboard session *)

(** The request a form holds when its widgets are within their ranges. *)
Lemma form_carries (f : App.Form) :
  App.widget_ranges f ->
  exists r,
    carries (App.basic_info f) (App.w_current_quality f)
      (App.resource_constraints f) r
    /\ valid r.
Proof.
  intros [[n [Hn Rn]] [sc [Hsc Rsc]] [q [Hq Rq]] [cpu [Hcpu Rcpu]]
          [mem [Hmem Rmem]]].
  destruct f as [name size0 sc0 dt src tgt prio q0 cpu0 mem0 net disk conc];
    cbn in Hn, Hsc, Hq, Hcpu, Hmem; subst.
  exists {| req_size_mb := PyInt n; req_schema_complexity := PyFloat sc;
            req_current_quality := PyFloat q;
            req_cpu_utilization := PyFloat cpu;
            req_memory_utilization := PyFloat mem;
            req_data_type := dt;
            req_source_system := src;
            req_target_system := tgt |}.
  split.
  - split; cbn [req_size_mb req_schema_complexity req_current_quality
                req_cpu_utilization req_memory_utilization req_data_type
                req_source_system req_target_system];
      reflexivity.
  - split; cbn [qval req_size_mb req_schema_complexity req_current_quality
                req_cpu_utilization req_memory_utilization];
      try assumption.
    change (inject_Z 0 < inject_Z n)%Q. rewrite <- Zlt_Qlt. lia.
Qed.

Lemma click_generate_returns now f s st :
  result (optimize_migration_strategy (App.basic_info f)
            (App.w_current_quality f) (App.resource_constraints f))
    (App.rl_optimizer s) = Return st ->
  App.click_generate now f s
  = (App.Success,
     {| App.rl_optimizer := App.rl_optimizer s;
        App.optimization_history :=
          App.optimization_history s
          ++ [ {| App.timestamp := now;
                  App.table_name := App.w_table_name f;
                  App.strategy := st |} ];
        App.current_strategy := Some st;
        App.training_status := App.training_status s;
        App.training_results := App.training_results s |}).
Proof.
  unfold result, App.click_generate.
  destruct (optimize_stateless (App.basic_info f) (App.w_current_quality f)
              (App.resource_constraints f)) as [o Ho].
  rewrite Ho. cbn [fst]. now intros ->.
Qed.

Lemma derived_quality_within (r : MigrationRequest) :
  valid r -> (0 <= qval (derived_quality_score r) <= 0.98)%Q.
Proof.
  intros [_ [_ Hsc] [Hq _] _ _]. split; [|apply num_min_le_l].
  unfold derived_quality_score.
  pose proof (qval_num_add (req_current_quality r)
                (num_mul (num_sub (PyInt 1) (req_schema_complexity r))
                   (PyFloat 0.1))) as Ex.
  rewrite qval_num_mul, qval_num_sub in Ex. cbn [qval] in Ex.
  change (inject_Z 1) with 1%Q in Ex.
  destruct (num_min_cases (PyFloat 0.98)
              (num_add (req_current_quality r)
                 (num_mul (num_sub (PyInt 1) (req_schema_complexity r))
                    (PyFloat 0.1)))) as [[_ ->]|[_ ->]];
    cbn [qval]; lra.
Qed.

(** X10: pressing "Generate" on a form within the widget ranges always
    succeeds: the strategy the optimizer returns becomes the current
    strategy and is appended, with the time and the table name, as one
    new last entry of the session history; the optimizer object and the
    training fields are untouched. *)
Theorem generate_in_range_appends (now : string) (f : App.Form)
    (s : App.SessionState) :
  App.widget_ranges f ->
  exists st,
    result (optimize_migration_strategy (App.basic_info f)
              (App.w_current_quality f) (App.resource_constraints f))
      (App.rl_optimizer s) = Return st
    /\ App.click_generate now f s
       = (App.Success,
          {| App.rl_optimizer := App.rl_optimizer s;
             App.optimization_history :=
               App.optimization_history s
               ++ [ {| App.timestamp := now;
                       App.table_name := App.w_table_name f;
                       App.strategy := st |} ];
             App.current_strategy := Some st;
             App.training_status := App.training_status s;
             App.training_results := App.training_results s |}).
Proof.
  intro Hf. destruct (form_carries f Hf) as [r [Hc _]].
  exists (derived_strategy r).
  assert (result (optimize_migration_strategy (App.basic_info f)
                    (App.w_current_quality f) (App.resource_constraints f))
            (App.rl_optimizer s) = Return (derived_strategy r)) as Hr
    by (unfold result; now rewrite (optimize_carries _ _ _ r)).
  split; [exact Hr|]. now apply click_generate_returns.
Qed.

Ltac widgets_in_range :=
  split; eexists; (split; [reflexivity | first [lia | split; discriminate]]).

Lemma generate_in_range_appends_default :
  exists st,
    result (optimize_migration_strategy
              (App.basic_info (App.default_form (vint 2500)))
              (App.w_current_quality (App.default_form (vint 2500)))
              (App.resource_constraints (App.default_form (vint 2500))))
      (App.rl_optimizer App.new_session) = Return st
    /\ App.click_generate "2026-11-04T14:14:07" (App.default_form (vint 2500))
         App.new_session
       = (App.Success,
          {| App.rl_optimizer := App.rl_optimizer App.new_session;
             App.optimization_history :=
               App.optimization_history App.new_session
               ++ [ {| App.timestamp := "2026-11-04T14:14:07";
                       App.table_name :=
                         App.w_table_name (App.default_form (vint 2500));
                       App.strategy := st |} ];
             App.current_strategy := Some st;
             App.training_status := App.training_status App.new_session;
             App.training_results := App.training_results App.new_session |}).
Proof.
  apply (generate_in_range_appends "2026-11-04T14:14:07"
           (App.default_form (vint 2500)) App.new_session).
  widgets_in_range.
Defined.

(** What one button press does to a session that satisfies the session
    invariant. *)
Lemma handle_in_ranges (s : App.SessionState) (ev : App.event) :
  App.in_ranges ev ->
  Forall App.quality_within (App.optimization_history s) ->
  App.rl_optimizer (App.handle s ev) = App.rl_optimizer s
  /\ length (App.optimization_history (App.handle s ev))
     = (length (App.optimization_history s)
        + (if App.is_generate ev then 1 else 0))%nat
  /\ Forall App.quality_within (App.optimization_history (App.handle s ev))
  /\ (App.current_strategy (App.handle s ev) = None <->
      App.current_strategy s = None /\ App.is_generate ev = false)
  /\ App.training_status (App.handle s ev)
     = match ev with
       | App.Train => "completed"
       | _ => App.training_status s
       end.
Proof.
  intros Hev Hq. destruct ev as [|now f|now]; cbn [App.handle App.is_generate].
  - cbn [App.click_train train_model ret snd App.rl_optimizer
         App.optimization_history App.current_strategy App.training_status].
    rewrite Nat.add_0_r. repeat split; try assumption; tauto.
  - cbn [App.in_ranges] in Hev.
    destruct (form_carries f Hev) as [r [Hc Hv]].
    rewrite (click_generate_returns now f s (derived_strategy r))
      by (unfold result; now rewrite (optimize_carries _ _ _ r)).
    cbn [snd App.rl_optimizer App.optimization_history App.current_strategy
         App.training_status].
    split; [reflexivity|]. split; [now rewrite length_app|].
    split; [|split; [|reflexivity]].
    + apply Forall_app. split; [assumption|].
      constructor; [|constructor].
      exists (derived_quality_score r). split; [reflexivity|].
      now apply derived_quality_within.
    + split; [discriminate | intros [_ H]; discriminate H].
  - unfold App.click_export.
    destruct (App.optimization_history s) as [|entry history] eqn:Hh;
      [|destruct (App.current_strategy s) as [current|] eqn:Hcur];
      cbn [snd export_strategy_report ret App.rl_optimizer
           App.optimization_history App.current_strategy
           App.training_status];
      rewrite ?Hh, ?Hcur, Nat.add_0_r;
      repeat split; try assumption; try tauto; try discriminate;
      intros [H _]; discriminate H.
Qed.

Lemma run_in_ranges (events : list App.event) :
  Forall App.in_ranges events ->
  App.rl_optimizer (App.run events) = init
  /\ length (App.optimization_history (App.run events))
     = length (List.filter App.is_generate events)
  /\ Forall App.quality_within (App.optimization_history (App.run events))
  /\ (App.current_strategy (App.run events) = None <->
      List.filter App.is_generate events = [])
  /\ (App.training_status (App.run events) = "completed" <->
      In App.Train events)
  /\ (App.training_status (App.run events) = "not_started" <->
      ~ In App.Train events).
Proof.
  unfold App.run. induction events as [|ev events IH] using rev_ind; intro Hall.
  - cbn. repeat split; try easy; try constructor.
  - apply Forall_app in Hall as [Hall Hev].
    apply Forall_inv in Hev.
    destruct (IH Hall) as (Hopt & Hlen & Hq & Hcur & Hdone & Hnot).
    rewrite fold_left_app. cbn [fold_left].
    destruct (handle_in_ranges _ ev Hev Hq) as (Hopt' & Hlen' & Hq' & Hcur' & Hst').
    rewrite Hopt', Hlen', Hcur', Hst', List.filter_app, length_app.
    cbn [List.filter]. split; [assumption|]. split; [|split; [assumption|]].
    + rewrite Hlen. now destruct (App.is_generate ev).
    + split; [|split].
      * rewrite Hcur. destruct (App.is_generate ev);
          [split; [intros [_ H]; discriminate H
                  | intro H; now destruct (List.filter App.is_generate events)]
          | rewrite app_nil_r; tauto].
      * rewrite in_app_iff. cbn [In].
        destruct ev; [tauto| |];
          (rewrite Hdone; split; [tauto | intros [H|[H|[]]];
                                  [assumption | discriminate H]]).
      * rewrite in_app_iff. cbn [In].
        destruct ev; [split; [discriminate | tauto]| |];
          (rewrite Hnot; split;
           [intros H [H'|[H'|[]]]; [tauto | discriminate H']
           | tauto]).
Qed.

Lemma removelast_in_ranges (events : list App.event) :
  Forall App.in_ranges events -> Forall App.in_ranges (removelast events).
Proof.
  induction 1 as [|ev events Hev Hall IH]; [constructor|].
  cbn [removelast]. destruct events; now constructor.
Qed.

(** X12: after any series of button presses with forms within the
    widget ranges, the session summary's "Total Strategies Generated" is
    the number of "Generate" presses (and is not drawn when there was
    none), whereas the sidebar's "Session Optimizations", drawn before
    the last press is handled, counts the "Generate" presses before the
    last press only; the optimizer object is still as it was built, so
    that its own [get_performance_metrics] reports zero; there is a
    current strategy exactly when "Generate" was pressed; and the
    training status is "completed" exactly when "Train" was pressed,
    "not_started" otherwise (never "training" or "failed"). *)
Theorem session_counts (events : list App.event) :
  Forall App.in_ranges events ->
  App.total_strategies_generated (App.run events)
  = match List.filter App.is_generate events with
    | [] => None
    | presses => Some (Z.of_nat (length presses))
    end
  /\ App.session_optimizations events
     = Z.of_nat (length (List.filter App.is_generate (removelast events)))
  /\ App.rl_optimizer (App.run events) = init
  /\ field total_optimizations
       (result get_performance_metrics (App.rl_optimizer (App.run events)))
     = Return 0
  /\ (App.current_strategy (App.run events) = None <->
      List.filter App.is_generate events = [])
  /\ (App.training_status (App.run events) = "completed" <->
      In App.Train events)
  /\ (App.training_status (App.run events) = "not_started" <->
      ~ In App.Train events).
Proof.
  intro Hall.
  destruct (run_in_ranges events Hall) as (Hopt & Hlen & _ & Hcur & Hdone & Hnot).
  destruct (run_in_ranges _ (removelast_in_ranges events Hall))
    as (_ & Hlen' & _).
  split.
  { unfold App.total_strategies_generated.
    destruct (App.optimization_history (App.run events)) as [|e h],
             (List.filter App.is_generate events) as [|p ps];
      try discriminate Hlen; [reflexivity|].
    now rewrite Hlen. }
  split; [unfold App.session_optimizations; now rewrite Hlen'|].
  rewrite Hopt.
  repeat split; try apply Hcur; try apply Hdone; try apply Hnot.
Qed.

Ltac all_in_ranges :=
  repeat match goal with
         | |- Forall _ (_ :: _) => constructor
         | |- Forall _ [] => constructor
         end;
  cbn [App.in_ranges]; try exact I; widgets_in_range.

Lemma session_counts_sample :
  App.total_strategies_generated
    (App.run [ App.Generate "t1" (App.default_form (vint 2500)); App.Train;
               App.Export sample_time;
               App.Generate "t2" (App.default_form (vint 70000)) ])
  = match
      List.filter App.is_generate
        [ App.Generate "t1" (App.default_form (vint 2500)); App.Train;
          App.Export sample_time;
          App.Generate "t2" (App.default_form (vint 70000)) ]
    with
    | [] => None
    | presses => Some (Z.of_nat (length presses))
    end
  /\ App.session_optimizations
       [ App.Generate "t1" (App.default_form (vint 2500)); App.Train;
         App.Export sample_time;
         App.Generate "t2" (App.default_form (vint 70000)) ]
     = Z.of_nat
         (length
            (List.filter App.is_generate
               (removelast
                  [ App.Generate "t1" (App.default_form (vint 2500));
                    App.Train; App.Export sample_time;
                    App.Generate "t2" (App.default_form (vint 70000)) ])))
  /\ App.rl_optimizer
       (App.run [ App.Generate "t1" (App.default_form (vint 2500)); App.Train;
                  App.Export sample_time;
                  App.Generate "t2" (App.default_form (vint 70000)) ])
     = init
  /\ field total_optimizations
       (result get_performance_metrics
          (App.rl_optimizer
             (App.run [ App.Generate "t1" (App.default_form (vint 2500));
                        App.Train; App.Export sample_time;
                        App.Generate "t2" (App.default_form (vint 70000)) ])))
     = Return 0
  /\ (App.current_strategy
        (App.run [ App.Generate "t1" (App.default_form (vint 2500)); App.Train;
                   App.Export sample_time;
                   App.Generate "t2" (App.default_form (vint 70000)) ])
      = None <->
      List.filter App.is_generate
        [ App.Generate "t1" (App.default_form (vint 2500)); App.Train;
          App.Export sample_time;
          App.Generate "t2" (App.default_form (vint 70000)) ] = [])
  /\ (App.training_status
        (App.run [ App.Generate "t1" (App.default_form (vint 2500)); App.Train;
                   App.Export sample_time;
                   App.Generate "t2" (App.default_form (vint 70000)) ])
      = "completed" <->
      In App.Train
        [ App.Generate "t1" (App.default_form (vint 2500)); App.Train;
          App.Export sample_time;
          App.Generate "t2" (App.default_form (vint 70000)) ])
  /\ (App.training_status
        (App.run [ App.Generate "t1" (App.default_form (vint 2500)); App.Train;
                   App.Export sample_time;
                   App.Generate "t2" (App.default_form (vint 70000)) ])
      = "not_started" <->
      ~ In App.Train
          [ App.Generate "t1" (App.default_form (vint 2500)); App.Train;
            App.Export sample_time;
            App.Generate "t2" (App.default_form (vint 70000)) ]).
Proof.
  apply (session_counts
           [ App.Generate "t1" (App.default_form (vint 2500)); App.Train;
             App.Export sample_time;
             App.Generate "t2" (App.default_form (vint 70000)) ]).
  all_in_ranges.
Defined.




(** ** The radar chart *)









(** ** The binary64 embedding: outcomes of the built-ins on numbers *)

Module Binary64Facts.
Import Binary64.

Lemma checked_cases (f : spec_float) :
  checked f = Return f \/ checked f = Raise OverflowError.
Proof. unfold checked. destruct (is_infinite f); auto. Qed.

Lemma as_float_cases (n : number) :
  (exists f, as_float n = Return f) \/ as_float n = Raise OverflowError.
Proof.
  destruct n as [z|f]; cbn [as_float]; [|left; now exists f].
  unfold float_of_int. destruct (checked_cases (binary_normalize prec emax z 0 false))
    as [H|H]; rewrite H; [left; eauto | now right].
Qed.

Lemma float_op_cases op (a b : number) :
  (exists f, float_op op a b = Return (BFloat f))
  \/ float_op op a b = Raise OverflowError.
Proof.
  unfold float_op.
  destruct (as_float_cases a) as [[x Hx]|Hx]; rewrite Hx; [|now right].
  destruct (as_float_cases b) as [[y Hy]|Hy]; rewrite Hy; [|now right].
  left. eauto.
Qed.

Lemma py_mul_cases (a b : number) :
  (exists n, py_mul (BNum a) (BNum b) = Return (BNum n))
  \/ py_mul (BNum a) (BNum b) = Raise OverflowError.
Proof.
  assert (py_mul (BNum a) (BNum b) = lift_num (num_mul a b)) as ->
    by now destruct a.
  unfold num_mul. destruct a as [x|x], b as [y|y];
    try (left; eexists; reflexivity);
    match goal with
    | |- context [float_op ?op ?a ?b] =>
        destruct (float_op_cases op a b) as [[f Hf]|Hf]; rewrite Hf;
        [left; eexists; reflexivity | now right]
    end.
Qed.

Lemma py_add_cases (a b : number) :
  (exists n, py_add (BNum a) (BNum b) = Return (BNum n))
  \/ py_add (BNum a) (BNum b) = Raise OverflowError.
Proof.
  cbn [py_add]. unfold num_add. destruct a as [x|x], b as [y|y];
    try (left; eexists; reflexivity);
    match goal with
    | |- context [float_op ?op ?a ?b] =>
        destruct (float_op_cases op a b) as [[f Hf]|Hf]; rewrite Hf;
        [left; eexists; reflexivity | now right]
    end.
Qed.

Lemma py_sub_cases (a b : number) :
  (exists n, py_sub (BNum a) (BNum b) = Return (BNum n))
  \/ py_sub (BNum a) (BNum b) = Raise OverflowError.
Proof.
  cbn [py_sub]. unfold num_sub. destruct a as [x|x], b as [y|y];
    try (left; eexists; reflexivity);
    match goal with
    | |- context [float_op ?op ?a ?b] =>
        destruct (float_op_cases op a b) as [[f Hf]|Hf]; rewrite Hf;
        [left; eexists; reflexivity | now right]
    end.
Qed.

Lemma py_int_cases (a : number) :
  (exists z, py_int (BNum a) = Return (bint z))
  \/ py_int (BNum a) = Raise OverflowError
  \/ py_int (BNum a) = Raise ValueError.
Proof.
  destruct a as [z|[s|s| |s m e]]; cbn; eauto.
Qed.

Lemma b_num_lt_int (a b : Z) : num_lt (BInt a) (BInt b) = (a <? b)%Z.
Proof. unfold num_lt, num_compare, Z.ltb. now destruct (a ?= b)%Z. Qed.

Lemma b_py_max_int (a b : Z) :
  py_max (bint a) (bint b) = Return (bint (Z.max a b)).
Proof.
  unfold py_max, py_gt, py_lt, bint. rewrite b_num_lt_int.
  destruct (Z.ltb_spec a b); do 3 f_equal; lia.
Qed.

Lemma b_py_min_int (a b : Z) :
  py_min (bint a) (bint b) = Return (bint (Z.min a b)).
Proof.
  unfold py_min, py_lt, bint. rewrite b_num_lt_int.
  destruct (Z.ltb_spec b a); do 3 f_equal; lia.
Qed.

Lemma b_py_max_num (a b : number) :
  py_max (BNum a) (BNum b) = Return (BNum (num_max a b)).
Proof. unfold py_max, py_gt, py_lt, num_max. now destruct (num_lt a b). Qed.

Lemma b_py_min_num (a b : number) :
  py_min (BNum a) (BNum b) = Return (BNum (num_min a b)).
Proof. unfold py_min, py_lt, num_min. now destruct (num_lt b a). Qed.

Lemma b_py_mul_int (a b : Z) :
  py_mul (bint a) (bint b) = Return (bint (a * b)).
Proof. reflexivity. Qed.

Lemma b_py_floordiv_int (a d : Z) :
  (d <> 0)%Z -> py_floordiv (bint a) (bint d) = Return (bint (a / d)).
Proof.
  intro Hd. unfold py_floordiv, bint, int_floordiv.
  now destruct (Z.eqb_spec d 0).
Qed.

(** A few-hundred integer converts to a float that is neither zero nor
    out of range. *)
Lemma divisor_converts (w : Z) :
  (1 <= w <= 8)%Z ->
  exists f, float_of_int (w * 100) = Return f /\ is_zero f = false.
Proof.
  intro Hw.
  assert (w = 1 \/ w = 2 \/ w = 3 \/ w = 4 \/ w = 5 \/ w = 6 \/ w = 7 \/ w = 8)%Z
    as Hk by lia.
  repeat (destruct Hk as [->|Hk]; [eexists; split; vm_compute; reflexivity|]).
  subst. eexists; split; vm_compute; reflexivity.
Qed.

(** Dividing a number by a non-zero integer never raises
    [ZeroDivisionError]. *)
Lemma py_truediv_cases (a : number) (d : Z) :
  (d = 1000 \/ exists w, (1 <= w <= 8)%Z /\ d = (w * 100)%Z) ->
  (exists f, py_truediv (BNum a) (bint d) = Return (bfloat f))
  \/ py_truediv (BNum a) (bint d) = Raise OverflowError.
Proof.
  intro Hd.
  assert (d <> 0)%Z as Hnz by (destruct Hd as [->|[w [Hw ->]]]; lia).
  assert (exists f, float_of_int d = Return f /\ is_zero f = false) as [fd [Hfd Hz]].
  { destruct Hd as [->|[w [Hw ->]]]; [|now apply divisor_converts].
    eexists; split; vm_compute; reflexivity. }
  unfold bint. cbn [py_truediv]. destruct a as [x|x]; cbn [num_truediv as_float].
  - destruct (Z.eqb_spec d 0) as [E|_]; [contradiction|].
    destruct (checked_cases (round_ratio x d)) as [H|H]; rewrite H;
      [left; eexists; reflexivity | now right].
  - rewrite Hfd, Hz. left. eexists. reflexivity.
Qed.

Lemma b_both_above_num (a x b y : number) (self : MockMigrationOptimizer) :
  both_above (BNum a) (BNum x) (BNum b) (BNum y) self
  = (Return (num_lt x a && num_lt y b), self).
Proof.
  unfold both_above, bind, builtin, ret, py_gt, py_lt.
  now destruct (num_lt x a).
Qed.

Lemma b_risk_block_num {A} (sp qs : number) (k : string -> M A) self :
  bind
    (bind (both_above (BNum sp) (BNum (BFloat (literal 9 10)))
                      (BNum qs) (BNum (BFloat (literal 95 100))))
       (fun low =>
          if low then ret "LOW"
          else bind (both_above (BNum sp) (BNum (BFloat (literal 8 10)))
                                (BNum qs) (BNum (BFloat (literal 9 10))))
                 (fun medium => if medium then ret "MEDIUM" else ret "HIGH")))
    k self
  = k (risk_of sp qs) self.
Proof.
  unfold risk_of. unfold bind at 1. unfold bind at 1.
  rewrite b_both_above_num.
  destruct (num_lt (BFloat (literal 9 10)) sp
            && num_lt (BFloat (literal 95 100)) qs);
    [reflexivity|].
  unfold bind at 1. rewrite b_both_above_num.
  now destruct (num_lt (BFloat (literal 8 10)) sp
                && num_lt (BFloat (literal 9 10)) qs).
Qed.

Ltac raises_overflow := right; left; reflexivity.
Ltac raises_value := right; right; reflexivity.

Ltac op_step L :=
  let n := fresh "n" in
  let Hn := fresh "Hn" in
  destruct L as [[n Hn]|Hn]; unfold bint, bfloat in Hn; rewrite Hn;
  cbn [bind builtin ret]; [|raises_overflow].

Ltac rw L :=
  let E := fresh "E" in
  pose proof L as E; unfold bint, bfloat in E; rewrite E; clear E;
  cbn [bind builtin ret].

Ltac int_step L :=
  let z := fresh "z" in
  let Hz := fresh "Hz" in
  destruct L as [[z Hz]|[Hz|Hz]]; unfold bint, bfloat in Hz; rewrite Hz;
  cbn [bind builtin ret]; [|raises_overflow|raises_value].

(** What a call on numbers can do: return, with the batch size and the
    worker count read off the two conversions of lines 49 and 50, or
    raise [OverflowError] or [ValueError]. *)
Lemma numeric_outcome table_info current_quality resource_constraints r self :
  carries table_info current_quality resource_constraints r ->
  (exists st product t quotient u,
     optimize_migration_strategy table_info current_quality
       resource_constraints self = (Return st, self)
     /\ py_mul (BNum (req_size_mb r)) (bint 10) = Return (BNum product)
     /\ py_int (BNum product) = Return (bint t)
     /\ py_truediv (BNum (req_size_mb r)) (bint 1000) = Return (bfloat quotient)
     /\ py_int (bfloat quotient) = Return (bint u)
     /\ batch_size (action_parameters st) = bint (Z.max 1000 t)
     /\ parallel_workers (action_parameters st) = bint (Z.min 8 (Z.max 1 u)))
  \/ optimize_migration_strategy table_info current_quality
       resource_constraints self = (Raise OverflowError, self)
  \/ optimize_migration_strategy table_info current_quality
       resource_constraints self = (Raise ValueError, self).
Proof.
  intros [Hsz Hsc Hdt Hsrc Htgt -> Hcpu Hmem].
  unfold optimize_migration_strategy, getitem.
  rewrite Hsz, Hsc, Hdt, Hsrc, Htgt, Hcpu, Hmem.
  unfold bint, bfloat. cbn [bind builtin ret].
  op_step (py_mul_cases (req_size_mb r) (BInt 10)).
  int_step (py_int_cases n).
  rw (b_py_max_int 1000 z).
  op_step (py_truediv_cases (req_size_mb r) 1000 ltac:(now left)).
  int_step (py_int_cases (BFloat n0)).
  rw (b_py_max_int 1 z0).
  rw (b_py_min_int 8 (Z.max 1 z0)).
  op_step (py_sub_cases (BInt 1) (req_schema_complexity r)).
  op_step (py_mul_cases n1 (BFloat (literal 1 10))).
  op_step (py_add_cases (req_current_quality r) n2).
  rw (b_py_min_num (BFloat (literal 98 100)) n3).
  rw (b_py_mul_int (Z.min 8 (Z.max 1 z0)) 100).
  op_step (py_truediv_cases (req_size_mb r) (Z.min 8 (Z.max 1 z0) * 100)
             ltac:(right; exists (Z.min 8 (Z.max 1 z0)); split;
                   [lia | reflexivity])).
  rw (b_py_max_num (BInt 5) (BFloat n4)).
  op_step (py_add_cases (req_cpu_utilization r) (req_memory_utilization r)).
  rw (b_py_min_num (BFloat (literal 9 10)) n5).
  op_step (py_mul_cases (req_schema_complexity r) (BFloat (literal 3 10))).
  op_step (py_sub_cases (BInt 1) n6).
  rw (b_py_max_num (BFloat (literal 7 10)) n7).
  rewrite b_risk_block_num. cbn [bind builtin ret format_2f].
  rw (b_py_floordiv_int (Z.max 1000 z) 2 ltac:(lia)).
  rw (b_py_floordiv_int (Z.min 8 (Z.max 1 z0)) 2 ltac:(lia)).
  rw (b_py_max_int 1 (Z.min 8 (Z.max 1 z0) / 2)).
  left. eexists. exists n, z, n0, z0.
  split; [reflexivity|]. repeat split; assumption || reflexivity.
Qed.

Lemma py_sub_one_float (x : spec_float) :
  exists f, py_sub (BNum (BInt 1)) (BNum (BFloat x)) = Return (BNum (BFloat f)).
Proof.
  cbn [py_sub num_sub]. unfold float_op. cbn [as_float].
  destruct (float_of_int 1) as [one|e] eqn:E;
    [|vm_compute in E; discriminate E].
  eexists. reflexivity.
Qed.

Lemma py_mul_floats (x y : spec_float) :
  py_mul (BNum (BFloat x)) (BNum (BFloat y))
  = Return (BNum (BFloat (SFmul prec emax x y))).
Proof. reflexivity. Qed.

Lemma py_add_floats (x y : spec_float) :
  py_add (BNum (BFloat x)) (BNum (BFloat y))
  = Return (BNum (BFloat (SFadd prec emax x y))).
Proof. reflexivity. Qed.

(** With floats in the four other arithmetic inputs, a call returns as
    soon as the three computations on the size succeed. *)
Lemma size_decides table_info current_quality resource_constraints r self
    product t quotient u minutes :
  carries table_info current_quality resource_constraints r ->
  is_float (req_schema_complexity r) ->
  is_float (req_current_quality r) ->
  is_float (req_cpu_utilization r) ->
  is_float (req_memory_utilization r) ->
  py_mul (BNum (req_size_mb r)) (bint 10) = Return (BNum product) ->
  py_int (BNum product) = Return (bint t) ->
  py_truediv (BNum (req_size_mb r)) (bint 1000) = Return (bfloat quotient) ->
  py_int (bfloat quotient) = Return (bint u) ->
  py_truediv (BNum (req_size_mb r)) (bint (Z.min 8 (Z.max 1 u) * 100))
  = Return (bfloat minutes) ->
  exists st,
    optimize_migration_strategy table_info current_quality
      resource_constraints self = (Return st, self)
    /\ batch_size (action_parameters st) = bint (Z.max 1000 t)
    /\ parallel_workers (action_parameters st) = bint (Z.min 8 (Z.max 1 u))
    /\ processing_time_minutes (expected_performance st)
       = BNum (num_max (BInt 5) (BFloat minutes)).
Proof.
  intros [Hsz Hsc Hdt Hsrc Htgt -> Hcpu Hmem] Fsc Fq Fcpu Fmem
         Hp Ht Hq Hu Hm.
  destruct (req_schema_complexity r) as [|sc]; [destruct Fsc|].
  destruct (req_current_quality r) as [|q]; [destruct Fq|].
  destruct (req_cpu_utilization r) as [|cpu]; [destruct Fcpu|].
  destruct (req_memory_utilization r) as [|mem]; [destruct Fmem|].
  unfold optimize_migration_strategy, getitem.
  rewrite Hsz, Hsc, Hdt, Hsrc, Htgt, Hcpu, Hmem.
  unfold bint, bfloat in *. cbn [bind builtin ret].
  rewrite Hp. cbn [bind builtin ret]. rewrite Ht. cbn [bind builtin ret].
  rw (b_py_max_int 1000 t).
  rewrite Hq. cbn [bind builtin ret]. rewrite Hu. cbn [bind builtin ret].
  rw (b_py_max_int 1 u).
  rw (b_py_min_int 8 (Z.max 1 u)).
  destruct (py_sub_one_float sc) as [f1 H1]. rewrite H1.
  cbn [bind builtin ret].
  rewrite py_mul_floats. cbn [bind builtin ret].
  rewrite py_add_floats. cbn [bind builtin ret].
  rw (b_py_min_num (BFloat (literal 98 100))
        (BFloat (SFadd prec emax q (SFmul prec emax f1 (literal 1 10))))).
  rw (b_py_mul_int (Z.min 8 (Z.max 1 u)) 100).
  rewrite Hm. cbn [bind builtin ret].
  rw (b_py_max_num (BInt 5) (BFloat minutes)).
  rewrite py_add_floats. cbn [bind builtin ret].
  rw (b_py_min_num (BFloat (literal 9 10)) (BFloat (SFadd prec emax cpu mem))).
  rewrite py_mul_floats. cbn [bind builtin ret].
  destruct (py_sub_one_float (SFmul prec emax sc (literal 3 10))) as [f2 H2].
  rewrite H2. cbn [bind builtin ret].
  rw (b_py_max_num (BFloat (literal 7 10)) (BFloat f2)).
  rewrite b_risk_block_num. cbn [bind builtin ret format_2f].
  rw (b_py_floordiv_int (Z.max 1000 t) 2 ltac:(lia)).
  rw (b_py_floordiv_int (Z.min 8 (Z.max 1 u)) 2 ltac:(lia)).
  rw (b_py_max_int 1 (Z.min 8 (Z.max 1 u) / 2)).
  eexists. split; [reflexivity|]. repeat split.
Qed.

Ltac b_blame_key :=
  solve [ left; split; [cbn [In table_info_keys]; tauto | assumption]
        | right; split; [cbn [In resource_constraints_keys]; tauto | assumption] ].

Ltac b_blame_value :=
  first
    [ exists BNone; split; [reflexivity | solve [intuition (auto; reflexivity)]]
    | match goal with
      | s : string |- _ =>
          exists (BStr s); split;
          [reflexivity | solve [intuition (auto; reflexivity)]]
      end ].

Ltac b_raises e :=
  exists e; split;
  [reflexivity
  | first [ b_blame_key | b_blame_value | left; b_blame_value
          | eexists; reflexivity | right; eexists; reflexivity ] ].

Ltac op_or_raise L :=
  let n := fresh "n" in
  let Hn := fresh "Hn" in
  destruct L as [[n Hn]|Hn]; unfold bint, bfloat in Hn; rewrite Hn;
  cbn [bind builtin ret]; [|b_raises OverflowError].

Ltac int_or_raise L :=
  let z := fresh "z" in
  let Hz := fresh "Hz" in
  destruct L as [[z Hz]|[Hz|Hz]]; unfold bint, bfloat in Hz; rewrite Hz;
  cbn [bind builtin ret]; [|b_raises OverflowError|b_raises ValueError].

(** C9: a call whose arguments do not hold a well-typed request (a
    required key is missing, or one of the five arithmetic inputs is
    [None] or text) raises a built-in exception and leaves the optimizer
    as it was: [KeyError] with a key that is indeed missing, [TypeError]
    only when an arithmetic input is not a number, [ValueError] or
    [OverflowError] only when an input is not a number or the size is a
    number that [int()] or a conversion rejects; it never raises
    [ZeroDivisionError], and there is no exception class of the
    optimizer's own. *)
Theorem malformed_request_raises_builtin
    (table_info : gmap string pyval) current_quality
    (resource_constraints : gmap string pyval) self :
  ~ (exists r, carries table_info current_quality resource_constraints r) ->
  exists e,
    optimize_migration_strategy table_info current_quality
      resource_constraints self = (Raise e, self)
    /\ match e with
       | KeyError k => missing_key table_info resource_constraints k
       | TypeError =>
           non_numeric table_info current_quality resource_constraints
       | ValueError | OverflowError =>
           non_numeric table_info current_quality resource_constraints
           \/ exists n, table_info !! "size_mb" = Some (BNum n)
       | ZeroDivisionError => False
       end.
Proof.
  intro Hmal.
  unfold optimize_migration_strategy, getitem, bint, bfloat.
  unfold missing_key, non_numeric.
  (* size_mb *)
  destruct (table_info !! "size_mb") as [[size|s|]|] eqn:Hsz;
    cbn [bind builtin ret];
    [ | cbn [py_mul]; cbn [bind builtin ret] | b_raises TypeError
      | b_raises (KeyError "size_mb") ].
  2:{ destruct (py_int _) as [v|e] eqn:Hint; cbn [bind builtin ret];
        unfold py_int in Hint; destruct (int_of_string _);
        try discriminate; injection Hint as <-.
      - unfold bint. rw (b_py_max_int 1000 z).
        cbn [bind builtin ret py_truediv]. b_raises TypeError.
      - b_raises ValueError. }
  op_or_raise (py_mul_cases size (BInt 10)).
  int_or_raise (py_int_cases n).
  rw (b_py_max_int 1000 z).
  op_or_raise (py_truediv_cases size 1000 ltac:(now left)).
  int_or_raise (py_int_cases (BFloat n0)).
  rw (b_py_max_int 1 z0).
  rw (b_py_min_int 8 (Z.max 1 z0)).
  (* schema_complexity, current_quality *)
  destruct (table_info !! "schema_complexity") as [[sc|s|]|] eqn:Hsc;
    cbn [bind builtin ret];
    [ | b_raises TypeError | b_raises TypeError
      | b_raises (KeyError "schema_complexity") ].
  op_or_raise (py_sub_cases (BInt 1) sc).
  op_or_raise (py_mul_cases n1 (BFloat (literal 1 10))).
  destruct current_quality as [quality|s|];
    [ | b_raises TypeError | b_raises TypeError ].
  op_or_raise (py_add_cases quality n2).
  rw (b_py_min_num (BFloat (literal 98 100)) n3).
  rw (b_py_mul_int (Z.min 8 (Z.max 1 z0)) 100).
  op_or_raise (py_truediv_cases size (Z.min 8 (Z.max 1 z0) * 100)
                 ltac:(right; exists (Z.min 8 (Z.max 1 z0)); split;
                       [lia | reflexivity])).
  rw (b_py_max_num (BInt 5) (BFloat n4)).
  (* cpu_utilization, memory_utilization *)
  destruct (resource_constraints !! "cpu_utilization") as [cpu|] eqn:Hcpu;
    cbn [bind builtin ret]; [ | b_raises (KeyError "cpu_utilization") ].
  destruct (resource_constraints !! "memory_utilization") as [mem|] eqn:Hmem;
    cbn [bind builtin ret]; [ | b_raises (KeyError "memory_utilization") ].
  destruct cpu as [cpu|s|], mem as [mem|t|];
    try (b_raises TypeError).
  op_or_raise (py_add_cases cpu mem).
  rw (b_py_min_num (BFloat (literal 9 10)) n5).
  op_or_raise (py_mul_cases sc (BFloat (literal 3 10))).
  op_or_raise (py_sub_cases (BInt 1) n6).
  rw (b_py_max_num (BFloat (literal 7 10)) n7).
  rewrite b_risk_block_num. cbn [bind builtin ret format_2f].
  (* data_type, source_system, target_system *)
  destruct (table_info !! "data_type") as [dt|] eqn:Hdt;
    cbn [bind builtin ret]; [ | b_raises (KeyError "data_type") ].
  destruct (table_info !! "source_system") as [src|] eqn:Hsrc;
    cbn [bind builtin ret]; [ | b_raises (KeyError "source_system") ].
  destruct (table_info !! "target_system") as [tgt|] eqn:Htgt;
    cbn [bind builtin ret]; [ | b_raises (KeyError "target_system") ].
  exfalso. apply Hmal.
  now exists {| req_size_mb := size; req_schema_complexity := sc;
                req_current_quality := quality;
                req_cpu_utilization := cpu; req_memory_utilization := mem;
                req_data_type := dt; req_source_system := src;
                req_target_system := tgt |}.
Qed.

End Binary64Facts.

(** ** Claims that depend on binary64 rounding and range *)

(** The demo call returns a success probability one unit in the last
    place above the float 0.82. *)
Lemma quick_start_success_probability_is_not_0_82 :
  field (fun st => Binary64.success_probability
                     (Binary64.expected_performance st))
    (result Binary64.quick_start_call init)
  = Return (Binary64.bfloat (S754_finite false 7385903388887614 (-53)))
  /\ Binary64.literal 82 100 = S754_finite false 7385903388887613 (-53)
  /\ field (fun st => Binary64.success_probability
                        (Binary64.expected_performance st))
       (result Binary64.quick_start_call init)
     <> Return (Binary64.bfloat (Binary64.literal 82 100)).
Proof.
  split; [vm_compute; reflexivity|]. split; [vm_compute; reflexivity|].
  vm_compute. discriminate.
Qed.

(** C3: over binary64 the call of the demo script (size 1000, complexity
    0.6, current quality 0.85, cpu 0.7, memory 0.8) returns batch size
    10000, one worker, quality 0.89, 10.0 minutes, resource usage 0.9,
    risk level HIGH, and as success probability the float next above
    0.82 (printed 0.8200000000000001), the rounded value of
    [1 - 0.6 * 0.3]. *)
Theorem quick_start_scenario_binary64 (self : MockMigrationOptimizer) :
  exists st,
    result Binary64.quick_start_call self = Return st
    /\ Binary64.batch_size (Binary64.action_parameters st)
       = Binary64.bint 10000
    /\ Binary64.parallel_workers (Binary64.action_parameters st)
       = Binary64.bint 1
    /\ Binary64.quality_score (Binary64.expected_performance st)
       = Binary64.bfloat (Binary64.literal 89 100)
    /\ Binary64.processing_time_minutes (Binary64.expected_performance st)
       = Binary64.bfloat (Binary64.literal 10 1)
    /\ Binary64.resource_usage (Binary64.expected_performance st)
       = Binary64.bfloat (Binary64.literal 9 10)
    /\ Binary64.success_probability (Binary64.expected_performance st)
       = Binary64.bfloat
           (SFsucc Binary64.prec Binary64.emax (Binary64.literal 82 100))
    /\ Binary64.risk_level (Binary64.risk_assessment st) = "HIGH".
Proof.
  eexists. split; [vm_compute; reflexivity|].
  repeat split; vm_compute; reflexivity.
Qed.



(** Finite numeric sizes on which the call raises: the float 1e308
    (its product with 10 is infinite), the integer 10^400 (too large
    for the division); and a NaN size. *)
Lemma numeric_requests_can_raise :
  result (Binary64.sized_call (Binary64.bfloat (Binary64.literal (10 ^ 308) 1)))
    init = Raise OverflowError
  /\ result (Binary64.sized_call (Binary64.bint (10 ^ 400))) init
     = Raise OverflowError
  /\ result (Binary64.sized_call (Binary64.bfloat S754_nan)) init
     = Raise ValueError.
Proof. repeat split; vm_compute; reflexivity. Qed.

(** C7: a call whose arithmetic inputs are numbers (of any size or sign)
    and whose text keys are present never divides by zero and never
    raises a type or key error: it returns a strategy whose worker count
    is between 1 and 8, or it raises [OverflowError] or [ValueError]
    (a number too large for a float, or [int()] on an infinite or NaN
    float); and with floats in the four other inputs it does return as
    soon as the three computations on the size succeed. *)
Theorem numeric_request_outcomes
    table_info current_quality resource_constraints r self :
  Binary64.carries table_info current_quality resource_constraints r ->
  ((exists st w,
      result (Binary64.optimize_migration_strategy table_info current_quality
                resource_constraints) self = Return st
      /\ Binary64.parallel_workers (Binary64.action_parameters st)
         = Binary64.bint w
      /\ 1 <= w <= 8
      /\ w * 100 <> 0)
   \/ result (Binary64.optimize_migration_strategy table_info current_quality
                resource_constraints) self = Raise OverflowError
   \/ result (Binary64.optimize_migration_strategy table_info current_quality
                resource_constraints) self = Raise ValueError)
  /\ (forall product t quotient u minutes,
        Binary64.is_float (Binary64.req_schema_complexity r) ->
        Binary64.is_float (Binary64.req_current_quality r) ->
        Binary64.is_float (Binary64.req_cpu_utilization r) ->
        Binary64.is_float (Binary64.req_memory_utilization r) ->
        Binary64.py_mul (Binary64.BNum (Binary64.req_size_mb r))
          (Binary64.bint 10) = Return (Binary64.BNum product) ->
        Binary64.py_int (Binary64.BNum product) = Return (Binary64.bint t) ->
        Binary64.py_truediv (Binary64.BNum (Binary64.req_size_mb r))
          (Binary64.bint 1000) = Return (Binary64.bfloat quotient) ->
        Binary64.py_int (Binary64.bfloat quotient)
        = Return (Binary64.bint u) ->
        Binary64.py_truediv (Binary64.BNum (Binary64.req_size_mb r))
          (Binary64.bint (Z.min 8 (Z.max 1 u) * 100))
        = Return (Binary64.bfloat minutes) ->
        exists st,
          result (Binary64.optimize_migration_strategy table_info
                    current_quality resource_constraints) self = Return st).
Proof.
  intro Hc. split.
  - destruct (Binary64Facts.numeric_outcome _ _ _ r self Hc)
      as [(st & p & t & q & u & Hr & _ & _ & _ & _ & _ & Hw)|[Hr|Hr]];
      unfold result; rewrite Hr; cbn [fst]; [left | right; now left | right; now right].
    exists st, (Z.min 8 (Z.max 1 u)). repeat split; try assumption; lia.
  - intros p t q u m Fsc Fq Fcpu Fmem Hp Ht Hq Hu Hm.
    destruct (Binary64Facts.size_decides _ _ _ r self p t q u m Hc Fsc Fq
                Fcpu Fmem Hp Ht Hq Hu Hm) as [st [Hr _]].
    exists st. unfold result. now rewrite Hr.
Qed.

Lemma malformed_request_raises_builtin_missing_size :
  exists e,
    Binary64.missing_size_call init = (Raise e, init)
    /\ match e with
       | KeyError k =>
           Binary64.missing_key
             (delete "size_mb"
                (Binary64.table (Binary64.bint 2500)
                   (Binary64.bfloat (Binary64.literal 7 10))))
             (Binary64.constraints (Binary64.bfloat (Binary64.literal 6 10))
                (Binary64.bfloat (Binary64.literal 7 10))) k
       | TypeError =>
           Binary64.non_numeric
             (delete "size_mb"
                (Binary64.table (Binary64.bint 2500)
                   (Binary64.bfloat (Binary64.literal 7 10))))
             (Binary64.bfloat (Binary64.literal 85 100))
             (Binary64.constraints (Binary64.bfloat (Binary64.literal 6 10))
                (Binary64.bfloat (Binary64.literal 7 10)))
       | ValueError | OverflowError =>
           Binary64.non_numeric
             (delete "size_mb"
                (Binary64.table (Binary64.bint 2500)
                   (Binary64.bfloat (Binary64.literal 7 10))))
             (Binary64.bfloat (Binary64.literal 85 100))
             (Binary64.constraints (Binary64.bfloat (Binary64.literal 6 10))
                (Binary64.bfloat (Binary64.literal 7 10)))
           \/ exists n,
                delete "size_mb"
                  (Binary64.table (Binary64.bint 2500)
                     (Binary64.bfloat (Binary64.literal 7 10)))
                !! "size_mb" = Some (Binary64.BNum n)
       | ZeroDivisionError => False
       end.
Proof.
  apply (Binary64Facts.malformed_request_raises_builtin
           (delete "size_mb"
              (Binary64.table (Binary64.bint 2500)
                 (Binary64.bfloat (Binary64.literal 7 10))))
           (Binary64.bfloat (Binary64.literal 85 100))
           (Binary64.constraints (Binary64.bfloat (Binary64.literal 6 10))
              (Binary64.bfloat (Binary64.literal 7 10))) init).
  intros [r [H _ _ _ _ _ _ _]]. vm_compute in H. discriminate H.
Defined.

(** A missing key, a [None] and a text in the size end in three
    different exception classes, none of them a dedicated one; a [None]
    in two different fields ends in the very same exception; and a
    request whose fields are all numbers can fail as well. *)
Lemma failures_are_not_one_kind :
  result Binary64.missing_size_call init = Raise (KeyError "size_mb")
  /\ result (Binary64.sized_call Binary64.BNone) init = Raise TypeError
  /\ result (Binary64.sized_call (Binary64.BStr "big")) init = Raise ValueError
  /\ same_kind (KeyError "size_mb") TypeError = false
  /\ same_kind TypeError ValueError = false
  /\ result Binary64.none_quality_call init
     = result Binary64.none_cpu_call init
  /\ result (Binary64.sized_call (Binary64.bint (10 ^ 400))) init
     = Raise OverflowError.
Proof.
  do 6 (split; [vm_compute; reflexivity|]). vm_compute. reflexivity.
Qed.

(** A request far outside the documented ranges: size -40, complexity
    7.0, quality 12.5, cpu -3.0. *)
Lemma numeric_request_outcomes_out_of_range :
  ((exists st w,
      result (Binary64.optimize_migration_strategy
                (Binary64.table (Binary64.bint (-40)) (Binary64.bfloat (Binary64.literal 7 1)))
                (Binary64.bfloat (Binary64.literal 125 10))
                (Binary64.constraints (Binary64.bfloat (Binary64.literal (-3) 1))
                   (Binary64.bfloat (Binary64.literal 8 10)))) init
      = Return st
      /\ Binary64.parallel_workers (Binary64.action_parameters st)
         = Binary64.bint w
      /\ 1 <= w <= 8
      /\ w * 100 <> 0)
   \/ result (Binary64.optimize_migration_strategy
                (Binary64.table (Binary64.bint (-40)) (Binary64.bfloat (Binary64.literal 7 1)))
                (Binary64.bfloat (Binary64.literal 125 10))
                (Binary64.constraints (Binary64.bfloat (Binary64.literal (-3) 1))
                   (Binary64.bfloat (Binary64.literal 8 10)))) init
      = Raise OverflowError
   \/ result (Binary64.optimize_migration_strategy
                (Binary64.table (Binary64.bint (-40)) (Binary64.bfloat (Binary64.literal 7 1)))
                (Binary64.bfloat (Binary64.literal 125 10))
                (Binary64.constraints (Binary64.bfloat (Binary64.literal (-3) 1))
                   (Binary64.bfloat (Binary64.literal 8 10)))) init
      = Raise ValueError)
  /\ (forall product t quotient u minutes,
        Binary64.is_float (Binary64.BFloat (Binary64.literal 7 1)) ->
        Binary64.is_float (Binary64.BFloat (Binary64.literal 125 10)) ->
        Binary64.is_float (Binary64.BFloat (Binary64.literal (-3) 1)) ->
        Binary64.is_float (Binary64.BFloat (Binary64.literal 8 10)) ->
        Binary64.py_mul (Binary64.BNum (Binary64.BInt (-40)))
          (Binary64.bint 10) = Return (Binary64.BNum product) ->
        Binary64.py_int (Binary64.BNum product) = Return (Binary64.bint t) ->
        Binary64.py_truediv (Binary64.BNum (Binary64.BInt (-40)))
          (Binary64.bint 1000) = Return (Binary64.bfloat quotient) ->
        Binary64.py_int (Binary64.bfloat quotient)
        = Return (Binary64.bint u) ->
        Binary64.py_truediv (Binary64.BNum (Binary64.BInt (-40)))
          (Binary64.bint (Z.min 8 (Z.max 1 u) * 100))
        = Return (Binary64.bfloat minutes) ->
        exists st,
          result (Binary64.optimize_migration_strategy
                    (Binary64.table (Binary64.bint (-40)) (Binary64.bfloat (Binary64.literal 7 1)))
                    (Binary64.bfloat (Binary64.literal 125 10))
                    (Binary64.constraints (Binary64.bfloat (Binary64.literal (-3) 1))
                       (Binary64.bfloat (Binary64.literal 8 10)))) init
          = Return st).
Proof.
  apply (numeric_request_outcomes
           (Binary64.table (Binary64.bint (-40)) (Binary64.bfloat (Binary64.literal 7 1)))
           (Binary64.bfloat (Binary64.literal 125 10))
           (Binary64.constraints (Binary64.bfloat (Binary64.literal (-3) 1))
              (Binary64.bfloat (Binary64.literal 8 10)))
           {| Binary64.req_size_mb := Binary64.BInt (-40);
              Binary64.req_schema_complexity :=
                Binary64.BFloat (Binary64.literal 7 1);
              Binary64.req_current_quality :=
                Binary64.BFloat (Binary64.literal 125 10);
              Binary64.req_cpu_utilization :=
                Binary64.BFloat (Binary64.literal (-3) 1);
              Binary64.req_memory_utilization :=
                Binary64.BFloat (Binary64.literal 8 10);
              Binary64.req_data_type := Binary64.BStr "structured";
              Binary64.req_source_system := Binary64.BStr "postgresql";
              Binary64.req_target_system := Binary64.BStr "bigquery" |} init).
  split; reflexivity.
Defined.
